(** * osmium/io/compression.hpp: the codec registry and the no-op codecs

    A shallow embedding of [include/osmium/io/compression.hpp] of libosmium:
    the [Compressor] and [Decompressor] base classes, the
    [CompressionFactory] registry, and the [NoCompressor], [NoDecompressor]
    and [DummyDecompressor] classes, followed by the properties proved of
    them.

    Methods are computations in a state monad: the state is the object
    ([this]) paired with the state of the platform, the result is a value or
    a C++ exception, and every call that leaves the header (a platform
    primitive of [osmium::io::detail], [osmium::file_size], a registered
    constructor callback) is written to a trace of events. *)

From Stdlib Require Import ZArith NArith List String Lia.
From stdpp Require Import base option list gmap strings.

Import ListNotations.
Local Open Scope N_scope.

(** ** std::size_t and std::string *)

(** [std::size_t] on the LP64 targets libosmium is built for: 64 bits,
    arithmetic modulo [2^64]. *)
Definition size_t_bits : N := 64.
Definition size_t_modulus : N := 2 ^ size_t_bits.
Definition size_t_add (a b : N) : N := (a + b) mod size_t_modulus.

(** A [std::string] used as a byte buffer. *)
Abbreviation bytes := (list Byte.byte).

Definition string_size (s : bytes) : N := N.of_nat (length s).

(** [s.resize(n)]: truncates, or pads with zero bytes. *)
Definition string_resize (n : N) (s : bytes) : bytes :=
  take (N.to_nat n) s ++ replicate (N.to_nat n - length s) Byte.x00.

(** [s.append(p, n)]: the [n] bytes found at [p]. *)
Definition string_append (s : bytes) (memory : bytes) (n : N) : bytes :=
  s ++ take (N.to_nat n) memory.

(** What a buffer holds after a callee stored [data] at its first byte. *)
Definition stored_at_begin (data buffer : bytes) : bytes :=
  data ++ drop (length data) buffer.

(** The lengths of a sequence of chunks, added up without wrap-around. *)
Definition total_size (chunks : list bytes) : N :=
  foldr (fun chunk acc => string_size chunk + acc) 0 chunks.

(** ** Exceptions, events and the method monad *)

(** The exceptions that cross this header: [unsupported_file_format_error]
    is thrown by the factory itself, [std::system_error] by the platform
    primitives; a registered constructor may throw anything else. *)
Inductive exception : Type :=
| unsupported_file_format_error (what : string)
| system_error (code : Z) (what : string)
| other_exception (what : string).

Inductive outcome (A : Type) : Type :=
| returns (a : A)
| throws (e : exception).
Arguments returns {A} a.
Arguments throws {A} e.

(** The calls that leave the header, with their arguments.  The second
    argument of [ev_remove_buffered_pages] is [None] for the one-argument
    overload. [ev_callback i] is a call of [std::get<i>] of a registered
    constructor triple. *)
Inductive event : Type :=
| ev_reliable_write (fd : Z) (data : bytes)
| ev_reliable_fsync (fd : Z)
| ev_reliable_close (fd : Z)
| ev_reliable_read (fd : Z) (size : N)
| ev_remove_buffered_pages (fd : Z) (size : option N)
| ev_file_size (fd : Z)
| ev_callback (index : nat).

(** A computation over a state [S]: the state survives an exception, as the
    fields of a C++ object do. *)
Definition M (S A : Type) : Type := S -> outcome A * S * list event.

Definition ret {S A} (a : A) : M S A := fun s => (returns a, s, []).

Definition throw {S A} (e : exception) : M S A := fun s => (throws e, s, []).

Definition bind {S A B} (m : M S A) (k : A -> M S B) : M S B :=
  fun s =>
    match m s with
    | (returns a, s1, t1) =>
        match k a s1 with
        | (r, s2, t2) => (r, s2, t1 ++ t2)
        end
    | (throws e, s1, t1) => (throws e, s1, t1)
    end.

Notation "'let*' x ':=' m 'in' k" := (bind m (fun x => k))
  (at level 10, x name, m at level 100, k at level 200).
Notation "'do*' m 'in' k" := (bind m (fun _ => k))
  (at level 10, m at level 100, k at level 200).

(** [try { m } catch (...) { }] *)
Definition catch_all {S} (m : M S unit) : M S unit :=
  fun s =>
    match m s with
    | (_, s1, t1) => (returns tt, s1, t1)
    end.

(** [m], and [cleanup] before the exception leaves when [m] throws: the
    unwinding of a scope that owns an object. *)
Definition unwinding {S A} (m : M S A) (cleanup : S -> S * list event) : M S A :=
  fun s =>
    match m s with
    | (returns a, s1, t1) => (returns a, s1, t1)
    | (throws e, s1, t1) =>
        match cleanup s1 with
        | (s2, t2) => (throws e, s2, t1 ++ t2)
        end
    end.

(** A [noexcept] computation seen as a state change. *)
Definition noexcept {S} (m : M S unit) : S -> S * list event :=
  fun s => match m s with (_, s1, t1) => (s1, t1) end.

(** Reading and writing [*this] in a method, and stepping outside it. *)
Definition get_this {T W} : M (T * W) T := fun s => (returns (fst s), s, []).

Definition set_this {T W} (t : T) : M (T * W) unit :=
  fun s => (returns tt, (t, snd s), []).

Definition outside {T W A} (m : M W A) : M (T * W) A :=
  fun s =>
    match m (snd s) with
    | (r, w, t) => (r, (fst s, w), t)
    end.

(** The three components of a finished run. *)
Definition result {S A} (x : outcome A * S * list event) : outcome A := fst (fst x).
Definition final {S A} (x : outcome A * S * list event) : S := snd (fst x).
Definition emitted {S A} (x : outcome A * S * list event) : list event := snd x.

(** ** The platform *)

(** [osmium/io/detail/read_write.hpp] and [osmium/util/file.hpp] are not
    part of this header: the primitives are taken as a parameter, an
    arbitrary deterministic machine over its own state [env].  A primitive
    either returns or throws; [sys_read] returns the bytes it delivered
    (their number is the C++ function's return value);
    [remove_buffered_pages] is best effort and cannot fail. *)
Record platform (env : Type) : Type := {
  sys_write : Z -> bytes -> env -> outcome unit * env;
  sys_fsync : Z -> env -> outcome unit * env;
  sys_close : Z -> env -> outcome unit * env;
  sys_read : Z -> N -> env -> outcome bytes * env;
  sys_remove_buffered_pages : Z -> option N -> env -> env;
  sys_file_size : Z -> env -> outcome N * env
}.
Arguments sys_write {env} _ _ _ _.
Arguments sys_fsync {env} _ _ _.
Arguments sys_close {env} _ _ _.
Arguments sys_read {env} _ _ _ _.
Arguments sys_remove_buffered_pages {env} _ _ _ _.
Arguments sys_file_size {env} _ _ _.

(** Modelled from the spec: the sync policy of [osmium/io/writer_options.hpp],
    which is not among the sources; a two-valued flag, fsync-on-close yes or
    no. *)
Inductive fsync : Type := no | yes.

Module detail.
Section Primitives.
Context {env : Type} (os : platform env).

Definition perform {A} (ev : event) (f : env -> outcome A * env) : M env A :=
  fun e => match f e with (r, e1) => (r, e1, [ev]) end.

Definition reliable_write (fd : Z) (data : bytes) : M env unit :=
  perform (ev_reliable_write fd data) (sys_write os fd data).

Definition reliable_fsync (fd : Z) : M env unit :=
  perform (ev_reliable_fsync fd) (sys_fsync os fd).

Definition reliable_close (fd : Z) : M env unit :=
  perform (ev_reliable_close fd) (sys_close os fd).

Definition reliable_read (fd : Z) (size : N) : M env bytes :=
  perform (ev_reliable_read fd size) (sys_read os fd size).

Definition remove_buffered_pages (fd : Z) (size : option N) : M env unit :=
  perform (ev_remove_buffered_pages fd size)
          (fun e => (returns tt, sys_remove_buffered_pages os fd size e)).

Definition file_size (fd : Z) : M env N :=
  perform (ev_file_size fd) (sys_file_size os fd).
End Primitives.
End detail.

(** ** class Compressor *)

Module Compressor.
Record t : Type := { m_fsync : fsync }.

Definition do_fsync (c : t) : bool :=
  match m_fsync c with
  | yes => true
  | no => false
  end.

(** [virtual std::size_t file_size() const { return 0; }] *)
Definition file_size (c : t) : N := 0.
End Compressor.

(** ** class NoCompressor *)

Module NoCompressor.
Record t : Type := {
  base : Compressor.t;
  m_file_size : N;
  m_fd : Z
}.

(** [NoCompressor(const int fd, const fsync sync)] *)
Definition make (fd : Z) (sync : fsync) : t :=
  {| base := {| Compressor.m_fsync := sync |}; m_file_size := 0; m_fd := fd |}.

Definition with_fd (fd : Z) (c : t) : t :=
  {| base := base c; m_file_size := m_file_size c; m_fd := fd |}.

Definition with_file_size (n : N) (c : t) : t :=
  {| base := base c; m_file_size := n; m_fd := m_fd c |}.

Definition file_size (c : t) : N := m_file_size c.

Section Methods.
Context {env : Type} (os : platform env).

Definition write (data : bytes) : M (t * env) unit :=
  let* self := get_this in
  do* outside (detail.reliable_write os (m_fd self) data) in
  let* self := get_this in
  set_this (with_file_size (size_t_add (m_file_size self) (string_size data)) self).

Definition close : M (t * env) unit :=
  let* self := get_this in
  if (0 <=? m_fd self)%Z then
    let fd := m_fd self in
    do* set_this (with_fd (-1) self) in
    (* Do not sync or close stdout *)
    if (fd =? 1)%Z then ret tt
    else
      do* (if Compressor.do_fsync (base self)
           then outside (detail.reliable_fsync os fd)
           else ret tt) in
      outside (detail.reliable_close os fd)
  else ret tt.

(** [~NoCompressor() noexcept]: [close()], any exception ignored. *)
Definition destroy : M (t * env) unit := catch_all close.
End Methods.
End NoCompressor.

(** ** class Decompressor *)

Module Decompressor.
Record t : Type := {
  m_file_size : N;
  m_offset : N;
  m_want_buffered_pages_removed : bool
}.

Definition input_buffer_size : N := 1024 * 1024.

(** [Decompressor() = default], with the default member initialisers. *)
Definition make : t :=
  {| m_file_size := 0; m_offset := 0; m_want_buffered_pages_removed := false |}.

Definition file_size (d : t) : N := m_file_size d.

Definition set_file_size (size : N) (d : t) : t :=
  {| m_file_size := size;
     m_offset := m_offset d;
     m_want_buffered_pages_removed := m_want_buffered_pages_removed d |}.

Definition offset (d : t) : N := m_offset d.

Definition set_offset (offset : N) (d : t) : t :=
  {| m_file_size := m_file_size d;
     m_offset := offset;
     m_want_buffered_pages_removed := m_want_buffered_pages_removed d |}.

Definition want_buffered_pages_removed (d : t) : bool :=
  m_want_buffered_pages_removed d.

Definition set_want_buffered_pages_removed (value : bool) (d : t) : t :=
  {| m_file_size := m_file_size d;
     m_offset := m_offset d;
     m_want_buffered_pages_removed := value |}.

(** [virtual bool is_real() const noexcept { return true; }] *)
Definition is_real (d : t) : bool := true.
End Decompressor.

(** The interface of the classes derived from [Decompressor]: the base
    subobject, the virtual methods and the virtual destructor (which is
    [noexcept]: a change of the platform's state and nothing else). *)
Class DecompressorClass (env D : Type) : Type := {
  decompressor : D -> Decompressor.t;
  with_decompressor : Decompressor.t -> D -> D;
  decompressor_with_decompressor :
    forall b d, decompressor (with_decompressor b d) = b;
  virtual_read : M (D * env) bytes;
  virtual_close : M (D * env) unit;
  virtual_is_real : D -> bool;
  virtual_destroy : D -> env -> env * list event
}.

(** ** class CompressionFactory *)

Module CompressionFactory.
Section Factory.
(** [osmium::io::file_compression] and its [as_string] are declared in
    [osmium/io/file_compression.hpp], which is not part of this header:
    they are parameters. [C] and [D] are the objects a [Compressor*] and a
    [Decompressor*] may point to. *)
Context {env : Type} (os : platform env).
Context {file_compression : Type} `{Countable file_compression}.
Context (as_string : file_compression -> string).
Context {C D : Type} `{!DecompressorClass env D}.

Definition create_compressor_type : Type := Z -> fsync -> M env C.
Definition create_decompressor_type_fd : Type := Z -> M env D.
Definition create_decompressor_type_buffer : Type := option bytes -> N -> M env D.

Record callbacks_type : Type := make_tuple {
  get0 : create_compressor_type;
  get1 : create_decompressor_type_fd;
  get2 : create_decompressor_type_buffer
}.

Record t : Type := { m_callbacks : gmap file_compression callbacks_type }.

(** [CompressionFactory() = default]: an empty map. *)
Definition make : t := {| m_callbacks := ∅ |}.

(** The call of a stored [std::function]. *)
Definition invoke {A} (index : nat) (callback : M env A) : M env A :=
  fun e => match callback e with (r, e1, t1) => (r, e1, ev_callback index :: t1) end.

Definition find_callbacks (f : t) (compression : file_compression)
  : M env callbacks_type :=
  match m_callbacks f !! compression with
  | Some callbacks => ret callbacks
  | None =>
      let error_message := "Support for compression '"%string in
      let error_message := (error_message ++ as_string compression)%string in
      let error_message := (error_message ++ "' not compiled into this binary")%string in
      throw (unsupported_file_format_error error_message)
  end.

(** [std::map::insert]: stores the pair unless the key is taken, and tells
    whether it did. *)
Definition map_insert (cc : file_compression * callbacks_type)
    (m : gmap file_compression callbacks_type)
  : gmap file_compression callbacks_type * bool :=
  match m !! fst cc with
  | Some _ => (m, false)
  | None => (<[fst cc := snd cc]> m, true)
  end.

Definition register_compression (compression : file_compression)
    (create_compressor : create_compressor_type)
    (create_decompressor_fd : create_decompressor_type_fd)
    (create_decompressor_buffer : create_decompressor_type_buffer)
    (f : t) : bool * t :=
  let cc := (compression,
             make_tuple create_compressor create_decompressor_fd
                        create_decompressor_buffer) in
  let inserted := map_insert cc (m_callbacks f) in
  (snd inserted, {| m_callbacks := fst inserted |}).

(** Any further registrations, in the order given. *)
Definition register_all (more : list (file_compression * callbacks_type)) (f : t) : t :=
  foldl (fun g cc =>
           snd (register_compression (fst cc) (get0 (snd cc)) (get1 (snd cc))
                  (get2 (snd cc)) g))
        f more.

Definition create_compressor (f : t) (compression : file_compression)
    (fd : Z) (sync : fsync) : M env C :=
  let* callbacks := find_callbacks f compression in
  invoke 0 (get0 callbacks fd sync).

(** The [std::unique_ptr] [p] owns the new object while the file size is
    asked for: if that throws, the object is destroyed on the way out. *)
Definition create_decompressor (f : t) (compression : file_compression)
    (fd : Z) : M env D :=
  let* callbacks := find_callbacks f compression in
  let* p := invoke 1 (get1 callbacks fd) in
  let* size := unwinding (detail.file_size os fd) (virtual_destroy p) in
  ret (with_decompressor (Decompressor.set_file_size size (decompressor p)) p).

(** What [create_decompressor(compression, fd)] does once [find_callbacks]
    has returned the triple [callbacks]. *)
Definition create_decompressor_with (callbacks : callbacks_type) (fd : Z) : M env D :=
  let* p := invoke 1 (get1 callbacks fd) in
  let* size := unwinding (detail.file_size os fd) (virtual_destroy p) in
  ret (with_decompressor (Decompressor.set_file_size size (decompressor p)) p).

Definition create_decompressor_buffer (f : t) (compression : file_compression)
    (buffer : option bytes) (size : N) : M env D :=
  let* callbacks := find_callbacks f compression in
  invoke 2 (get2 callbacks buffer size).
End Factory.
End CompressionFactory.

(** ** class DummyDecompressor *)

Module DummyDecompressor.
Record t : Type := { base : Decompressor.t }.

Definition make : t := {| base := Decompressor.make |}.

Definition read {env : Type} : M (t * env) bytes := ret [].

Definition close {env : Type} : M (t * env) unit := ret tt.

Definition is_real (d : t) : bool := false.
End DummyDecompressor.

(** ** class NoDecompressor *)

Module NoDecompressor.
(** [m_buffer] is [None] for the null pointer and otherwise holds the bytes
    found at the address. [m_offset] is the class's own counter; the base
    class has another one, which [offset()] reads. *)
Record t : Type := {
  base : Decompressor.t;
  m_fd : Z;
  m_buffer : option bytes;
  m_buffer_size : N;
  m_offset : N
}.

(** [explicit NoDecompressor(const int fd)] *)
Definition make_fd (fd : Z) : t :=
  {| base := Decompressor.make; m_fd := fd; m_buffer := None;
     m_buffer_size := 0; m_offset := 0 |}.

(** [NoDecompressor(const char* buffer, const std::size_t size)] *)
Definition make_buffer (buffer : option bytes) (size : N) : t :=
  {| base := Decompressor.make; m_fd := -1; m_buffer := buffer;
     m_buffer_size := size; m_offset := 0 |}.

Definition with_base (b : Decompressor.t) (d : t) : t :=
  {| base := b; m_fd := m_fd d; m_buffer := m_buffer d;
     m_buffer_size := m_buffer_size d; m_offset := m_offset d |}.

Definition with_fd (fd : Z) (d : t) : t :=
  {| base := base d; m_fd := fd; m_buffer := m_buffer d;
     m_buffer_size := m_buffer_size d; m_offset := m_offset d |}.

Definition with_buffer_size (size : N) (d : t) : t :=
  {| base := base d; m_fd := m_fd d; m_buffer := m_buffer d;
     m_buffer_size := size; m_offset := m_offset d |}.

Definition with_offset (offset : N) (d : t) : t :=
  {| base := base d; m_fd := m_fd d; m_buffer := m_buffer d;
     m_buffer_size := m_buffer_size d; m_offset := offset |}.

(** The inherited accessors. *)
Definition file_size (d : t) : N := Decompressor.file_size (base d).
Definition offset (d : t) : N := Decompressor.offset (base d).
Definition set_file_size (size : N) (d : t) : t :=
  with_base (Decompressor.set_file_size size (base d)) d.
Definition set_offset (offset : N) (d : t) : t :=
  with_base (Decompressor.set_offset offset (base d)) d.
Definition want_buffered_pages_removed (d : t) : bool :=
  Decompressor.want_buffered_pages_removed (base d).
Definition set_want_buffered_pages_removed (value : bool) (d : t) : t :=
  with_base (Decompressor.set_want_buffered_pages_removed value (base d)) d.

Section Methods.
Context {env : Type} (os : platform env).

Definition read : M (t * env) bytes :=
  let buffer : bytes := [] in
  let* self := get_this in
  let* buffer :=
    match m_buffer self with
    | Some memory =>
        if negb (m_buffer_size self =? 0) then
          let size := m_buffer_size self in
          do* set_this (with_buffer_size 0 self) in
          ret (string_append buffer memory size)
        else ret buffer
    | None =>
        let buffer := string_resize Decompressor.input_buffer_size buffer in
        do* (if want_buffered_pages_removed self
             then outside (detail.remove_buffered_pages os (m_fd self)
                             (Some (m_offset self)))
             else ret tt) in
        let* delivered :=
          outside (detail.reliable_read os (m_fd self)
                     Decompressor.input_buffer_size) in
        let nread := string_size delivered in
        ret (string_resize nread (stored_at_begin delivered buffer))
    end in
  let* self := get_this in
  let self := with_offset (size_t_add (m_offset self) (string_size buffer)) self in
  do* set_this (set_offset (m_offset self) self) in
  ret buffer.

Definition close : M (t * env) unit :=
  let* self := get_this in
  if (0 <=? m_fd self)%Z then
    do* (if want_buffered_pages_removed self
         then outside (detail.remove_buffered_pages os (m_fd self) None)
         else ret tt) in
    let fd := m_fd self in
    do* set_this (with_fd (-1) self) in
    outside (detail.reliable_close os fd)
  else ret tt.

(** [~NoDecompressor() noexcept]: [close()], any exception ignored. *)
Definition destroy : M (t * env) unit := catch_all close.

(** [k] calls of [read()] by a client that catches what a call throws;
    after each call it notes what the call returned or threw and what
    [offset()] says. *)
Fixpoint drain (k : nat) (s : t * env) : list (outcome bytes * N) * (t * env) :=
  match k with
  | O => ([], s)
  | S k' =>
      match read s with
      | (r, s1, _) =>
          match drain k' s1 with
          | (seen, s2) => ((r, offset (fst s1)) :: seen, s2)
          end
      end
  end.
End Methods.

(** Nothing has been read through the instance yet: both counters are 0,
    as the constructors leave them. *)
Definition unread_yet (d : t) : Prop := m_offset d = 0 /\ offset d = 0.

(** The two counters agree and are in range. *)
Definition in_step (d : t) : Prop :=
  offset d = m_offset d /\ m_offset d < size_t_modulus.

(** The chunk a call handed to its caller: none when it threw. *)
Definition chunk_of (o : outcome bytes * N) : bytes :=
  match fst o with
  | returns chunk => chunk
  | throws _ => []
  end.
End NoDecompressor.

#[export] Instance NoDecompressor_class {env : Type} (os : platform env)
  : DecompressorClass env NoDecompressor.t := {|
  decompressor := NoDecompressor.base;
  with_decompressor := NoDecompressor.with_base;
  decompressor_with_decompressor := fun b d => eq_refl;
  virtual_read := NoDecompressor.read os;
  virtual_close := NoDecompressor.close os;
  virtual_is_real := fun d => Decompressor.is_real (NoDecompressor.base d);
  virtual_destroy := fun d e =>
    match NoDecompressor.destroy os (d, e) with (_, s1, t1) => (snd s1, t1) end
|}.

#[export] Instance DummyDecompressor_class {env : Type}
  : DecompressorClass env DummyDecompressor.t := {|
  decompressor := DummyDecompressor.base;
  with_decompressor := fun b _ => {| DummyDecompressor.base := b |};
  decompressor_with_decompressor := fun b d => eq_refl;
  virtual_read := DummyDecompressor.read;
  virtual_close := DummyDecompressor.close;
  virtual_is_real := DummyDecompressor.is_real;
  virtual_destroy := fun d e => (e, [])
|}.

(** The registration this header performs at static initialisation, for the
    identifier [file_compression::none] (a parameter, like its type). *)
Module detail_registration.
Section Registration.
Context {env : Type}.
Context {file_compression : Type} `{Countable file_compression}.
Context (none : file_compression).

Definition registered_no_compression
    (f : CompressionFactory.t (env := env) (file_compression := file_compression)
           (C := NoCompressor.t) (D := NoDecompressor.t))
  : bool * CompressionFactory.t :=
  CompressionFactory.register_compression none
    (fun fd sync => ret (NoCompressor.make fd sync))
    (fun fd => ret (NoDecompressor.make_fd fd))
    (fun buffer size => ret (NoDecompressor.make_buffer buffer size))
    f.
End Registration.
End detail_registration.

(** ** Descriptors that read a regular file *)

(** The platform serves descriptor [fd] as a file of [size] bytes that is
    read from its start: [unread k e] says that in state [e] the last [k]
    bytes are still to be read. A read delivers some of them, at least one
    if any is left and any is asked for; the eviction hint leaves the
    position alone. *)
Record regular_file {env : Type} (os : platform env) (fd : Z) (size : N)
    (unread : N -> env -> Prop) : Prop := {
  rf_bound : forall k e, unread k e -> k <= size;
  rf_read : forall k e max, unread k e ->
    exists delivered e1,
      sys_read os fd max e = (returns delivered, e1) /\
      string_size delivered <= N.min max k /\
      (0 < max -> 0 < k -> delivered <> []) /\
      unread (k - string_size delivered) e1;
  rf_hint : forall k e upto, unread k e ->
    unread k (sys_remove_buffered_pages os fd upto e)
}.

(** The instance reads [fd], has handed out all but the last [left] bytes
    of the file and its counters say so. *)
Definition at_position {env : Type} (fd : Z) (size : N) (unread : N -> env -> Prop)
    (left : N) (d : NoDecompressor.t) (e : env) : Prop :=
  unread left e /\ NoDecompressor.in_step d /\
  NoDecompressor.m_buffer d = None /\ NoDecompressor.m_fd d = fd /\
  NoDecompressor.m_offset d + left = size.

(** ** Clients of a NoCompressor *)

Module NoCompressorClient.
Import NoCompressor.

(** A call a client may make on a compressor it holds. *)
Inductive method : Type :=
| call_write (data : bytes)
| call_close
| call_file_size.

(** What is left of the one fsync and the one close an instance may
    issue: one while it holds a descriptor, none afterwards. *)
Definition budget (c : t) : nat := if (0 <=? m_fd c)%Z then 1 else 0.

Section Clients.
Context {env : Type} (os : platform env).

Definition call (m : method) : M (t * env) unit :=
  match m with
  | call_write data => write os data
  | call_close => close os
  | call_file_size => let* self := get_this in let _ := file_size self in ret tt
  end.

(** Any sequence of calls; the client catches what a call throws and goes
    on, which covers a client that stops at the first exception (the rest
    of its sequence is empty). *)
Fixpoint calls (ms : list method) : M (t * env) unit :=
  match ms with
  | [] => ret tt
  | m :: rest => do* catch_all (call m) in calls rest
  end.

(** The whole life of one instance: constructed, used, destroyed. *)
Definition lifetime (fd : Z) (sync : fsync) (ms : list method) (e : env)
  : outcome unit * (t * env) * list event :=
  (do* calls ms in destroy os) (make fd sync, e).

(** [write(c1); write(c2); ...], left at the first exception. *)
Fixpoint write_all (chunks : list bytes) : M (t * env) unit :=
  match chunks with
  | [] => ret tt
  | chunk :: rest => do* write os chunk in write_all rest
  end.
End Clients.
End NoCompressorClient.

Definition is_fsync (ev : event) : bool :=
  match ev with ev_reliable_fsync _ => true | _ => false end.

Definition is_close (ev : event) : bool :=
  match ev with ev_reliable_close _ => true | _ => false end.

Definition count (p : event -> bool) (evs : list event) : nat :=
  length (List.filter p evs).

(** ** Platforms to run the model on *)

Module sample.
(** A device that accepts everything and has nothing to read. *)
Definition sink : platform unit := {|
  sys_write := fun _ _ e => (returns tt, e);
  sys_fsync := fun _ e => (returns tt, e);
  sys_close := fun _ e => (returns tt, e);
  sys_read := fun _ _ e => (returns [], e);
  sys_remove_buffered_pages := fun _ _ e => e;
  sys_file_size := fun _ e => (returns 0, e)
|}.

(** A disk on which fsync and close fail. *)
Definition broken_disk : platform unit := {|
  sys_write := fun _ _ e => (returns tt, e);
  sys_fsync := fun _ e => (throws (system_error 5 "Fsync failed"), e);
  sys_close := fun _ e => (throws (system_error 5 "Close failed"), e);
  sys_read := fun _ _ e => (returns [], e);
  sys_remove_buffered_pages := fun _ _ e => e;
  sys_file_size := fun _ e => (returns 0, e)
|}.

(** One file in memory behind every descriptor: its contents and the
    position of the next read. Writes append. *)
Record file : Type := { contents : bytes; position : nat }.

Definition memory_file : platform file := {|
  sys_write := fun _ data f =>
    (returns tt, {| contents := contents f ++ data; position := position f |});
  sys_fsync := fun _ f => (returns tt, f);
  sys_close := fun _ f => (returns tt, f);
  sys_read := fun _ size f =>
    let data := take (N.to_nat size) (drop (position f) (contents f)) in
    (returns data,
     {| contents := contents f; position := position f + length data |});
  sys_remove_buffered_pages := fun _ _ f => f;
  sys_file_size := fun _ f => (returns (string_size (contents f)), f)
|}.

Definition two_zero_bytes : bytes := [Byte.x00; Byte.x00].

(** A source that never ends: every read delivers two bytes. *)
Definition endless : platform unit := {|
  sys_write := fun _ _ e => (returns tt, e);
  sys_fsync := fun _ e => (returns tt, e);
  sys_close := fun _ e => (returns tt, e);
  sys_read := fun _ _ e => (returns two_zero_bytes, e);
  sys_remove_buffered_pages := fun _ _ e => e;
  sys_file_size := fun _ e => (returns 0, e)
|}.

Definition empty_file : file := {| contents := []; position := 0 |}.

(** Identifiers to run the registry on, and their names. *)
Inductive compression : Type := none | gzip | bzip2.

#[global] Instance compression_eq_dec : EqDecision compression.
Proof. solve_decision. Defined.

#[global] Instance compression_countable : Countable compression.
Proof.
  refine (inj_countable'
            (fun c => match c with none => 0 | gzip => 1 | bzip2 => 2 end)%nat
            (fun n => match n with 0 => none | 1 => gzip | _ => bzip2 end)%nat _).
  intros []; reflexivity.
Defined.

Definition as_string (c : compression) : string :=
  match c with
  | none => "none"
  | gzip => "gzip"
  | bzip2 => "bzip2"
  end.

(** The registry of a program that includes this header and no other
    codec. *)
Definition builtin {env : Type}
  : CompressionFactory.t (env := env) (file_compression := compression)
      (C := NoCompressor.t) (D := NoDecompressor.t) :=
  snd (detail_registration.registered_no_compression none CompressionFactory.make).

(** A constructor triple whose constructors refuse to build anything. *)
Definition refusing {env : Type}
  : CompressionFactory.callbacks_type (env := env)
      (C := NoCompressor.t) (D := NoDecompressor.t) :=
  CompressionFactory.make_tuple
    (fun _ _ => throw (other_exception "refused"))
    (fun _ => throw (other_exception "refused"))
    (fun _ _ => throw (other_exception "refused")).

(** The triple this header registers for [none]. *)
Definition no_compression {env : Type}
  : CompressionFactory.callbacks_type (env := env)
      (C := NoCompressor.t) (D := NoDecompressor.t) :=
  CompressionFactory.make_tuple
    (fun fd sync => ret (NoCompressor.make fd sync))
    (fun fd => ret (NoDecompressor.make_fd fd))
    (fun buffer size => ret (NoDecompressor.make_buffer buffer size)).

Definition ab : bytes := list_byte_of_string "ab".
Definition cd : bytes := list_byte_of_string "cd".
Definition hello : bytes := list_byte_of_string "hello".
End sample.

(** ** Observations on traces and further clients *)

(** The descriptor a platform call names; a callback call names none. *)
Definition event_fd (ev : event) : option Z :=
  match ev with
  | ev_reliable_write fd _ => Some fd
  | ev_reliable_fsync fd => Some fd
  | ev_reliable_close fd => Some fd
  | ev_reliable_read fd _ => Some fd
  | ev_remove_buffered_pages fd _ => Some fd
  | ev_file_size fd => Some fd
  | ev_callback _ => None
  end.

Module NoCompressorTrace.
Import NoCompressor.

(** Whether [close()] would still reach the platform: the instance holds a
    descriptor and it is not standard output. *)
Definition releasable (c : t) : nat :=
  if (0 <=? m_fd c)%Z && negb (m_fd c =? 1)%Z then 1 else 0.

Section Clients.
Context {env : Type} (os : platform env).

(** [write(c1)], [write(c2)], ... by a client that catches what a call
    throws and goes on; it notes which calls returned. *)
Fixpoint attempts (chunks : list bytes) (s : t * env)
  : list (outcome unit) * (t * env) * list event :=
  match chunks with
  | [] => ([], s, [])
  | chunk :: rest =>
      match write os chunk s with
      | (r, s1, t1) =>
          match attempts rest s1 with
          | (rs, s2, t2) => (r :: rs, s2, t1 ++ t2)
          end
      end
  end.
End Clients.

(** The chunks whose [write] returned. *)
Fixpoint accepted (chunks : list bytes) (rs : list (outcome unit)) : list bytes :=
  match chunks, rs with
  | chunk :: chunks', returns _ :: rs' => chunk :: accepted chunks' rs'
  | _ :: chunks', throws _ :: rs' => accepted chunks' rs'
  | _, _ => []
  end.
End NoCompressorTrace.

Module NoDecompressorClient.
Import NoDecompressor.

(** A call a client may make on a decompressor it holds: the two virtual
    methods and the setters of the base class. *)
Inductive method : Type :=
| call_read
| call_close
| call_set_file_size (size : N)
| call_set_offset (offset : N)
| call_set_want_buffered_pages_removed (value : bool).

(** What is left of the one close an instance may issue. *)
Definition budget (d : t) : nat := if (0 <=? m_fd d)%Z then 1 else 0.

Section Clients.
Context {env : Type} (os : platform env).

Definition call (m : method) : M (t * env) unit :=
  match m with
  | call_read => let* _ := read os in ret tt
  | call_close => close os
  | call_set_file_size size =>
      let* self := get_this in set_this (set_file_size size self)
  | call_set_offset offset =>
      let* self := get_this in set_this (set_offset offset self)
  | call_set_want_buffered_pages_removed value =>
      let* self := get_this in set_this (set_want_buffered_pages_removed value self)
  end.

(** Any sequence of calls; the client catches what a call throws and goes
    on. *)
Fixpoint calls (ms : list method) : M (t * env) unit :=
  match ms with
  | [] => ret tt
  | m :: rest => do* catch_all (call m) in calls rest
  end.

(** The whole life of an instance after its construction: used, then
    destroyed. *)
Definition lifetime (d : t) (ms : list method) (e : env)
  : outcome unit * (t * env) * list event :=
  (do* calls ms in destroy os) (d, e).
End Clients.
End NoDecompressorClient.

Module DummyDecompressorClient.
Import DummyDecompressor.

Inductive method : Type :=
| call_read
| call_close.

(** The calls of a client, each with what it returned: the chunk of a
    [read()], the empty chunk standing for the [void] of a [close()]. *)
Fixpoint calls {env : Type} (ms : list method) (s : t * env)
  : list (outcome bytes) * (t * env) * list event :=
  match ms with
  | [] => ([], s, [])
  | m :: rest =>
      match (match m with
             | call_read => read s
             | call_close => (let* _ := close in ret []) s
             end) with
      | (r, s1, t1) =>
          match calls rest s1 with
          | (rs, s2, t2) => (r :: rs, s2, t1 ++ t2)
          end
      end
  end.
End DummyDecompressorClient.

(** A platform that cannot tell the size of a file. *)
Module sample_failures.
Definition no_size : platform unit := {|
  sys_write := fun _ _ e => (returns tt, e);
  sys_fsync := fun _ e => (returns tt, e);
  sys_close := fun _ e => (returns tt, e);
  sys_read := fun _ _ e => (returns [], e);
  sys_remove_buffered_pages := fun _ _ e => e;
  sys_file_size := fun _ e => (throws (system_error 9 "Could not get file size"), e)
|}.
End sample_failures.

(** ** examples/osmium_area_test.cpp: the command line *)

(** The start of [main]: the option loop and the check of the remaining
    arguments, up to the point where the input file is opened. What
    [getopt_long] does, call after call, and where it leaves [optind] are
    parameters: each call returns a value and may write a diagnostic to the
    standard error stream on its own (it does for an option it does not
    know, [opterr] being left as it is). An exhausted list of answers
    stands for a call that returns -1 and writes nothing. *)
Module osmium_area_test.
Inductive effect : Type :=
| to_stdout (text : string)
| to_stderr (text : string)
| handler_set_WKTDump
| handler_set_Dump.

Inductive status : Type :=
| exits (code : Z)
| opens_input (index : Z).

(** One call of [getopt_long]: what it returned and what it wrote to the
    standard error stream while it ran. *)
Record answer : Type := {
  value : Z;
  diagnostic : option string
}.

(** What the call itself wrote. *)
Definition written (a : answer) : list effect :=
  match diagnostic a with
  | Some text => [to_stderr text]
  | None => []
  end.

Definition newline : string := String (Ascii.ascii_of_nat 10) EmptyString.

(** The text [print_help()] sends to [std::cout]. *)
Definition help_text : string :=
  ("osmium_area_test [OPTIONS] OSMFILE" ++ newline ++ newline
   ++ "Read OSMFILE and build multipolygons from it." ++ newline
   ++ newline ++ "Options:" ++ newline
   ++ "  -h, --help           This help message" ++ newline
   ++ "  -w, --dump-wkt       Dump area geometries as WKT" ++ newline
   ++ "  -o, --dump-objects   Dump area objects" ++ newline)%string.

Definition print_help : list effect := [to_stdout help_text].

(** The characters of the [switch]: 'h', 'w', 'o'. *)
Definition char_h : Z := 104.
Definition char_w : Z := 119.
Definition char_o : Z := 111.

(** The [while (true)] loop over the calls of [getopt_long]: [None] when
    the loop was left by [break], the exit code when it called
    [std::exit]. *)
Fixpoint read_options (answers : list answer) : list effect * option Z :=
  match answers with
  | [] => ([], None)
  | a :: rest =>
      let c := value a in
      if (c =? -1)%Z then (written a, None)
      else if (c =? char_h)%Z then (written a ++ print_help, Some 0%Z)
      else if (c =? char_w)%Z then
        match read_options rest with
        | (effects, code) => (written a ++ handler_set_WKTDump :: effects, code)
        end
      else if (c =? char_o)%Z then
        match read_options rest with
        | (effects, code) => (written a ++ handler_set_Dump :: effects, code)
        end
      else (written a, Some 1%Z)
  end.

Definition main (argc optind : Z) (argv0 : string) (answers : list answer)
  : list effect * status :=
  match read_options answers with
  | (effects, Some code) => (effects, exits code)
  | (effects, None) =>
      let remaining_args := (argc - optind)%Z in
      if negb (remaining_args =? 1)%Z then
        (effects ++ [to_stderr ("Usage: " ++ argv0 ++ " [OPTIONS] OSMFILE" ++ newline)],
         exits 1)
      else (effects, opens_input optind)
  end.

(** The options the loop accepts and goes on after. *)
Definition selects_handler (a : answer) : bool :=
  (value a =? char_w)%Z || (value a =? char_o)%Z.

(** What such a call and the loop's step on it leave behind. *)
Definition handler_of (a : answer) : list effect :=
  written a
  ++ [if (value a =? char_w)%Z then handler_set_WKTDump else handler_set_Dump].

(** The calls the loop goes through without leaving. *)
Fixpoint accepted_prefix (answers : list answer) : list answer :=
  match answers with
  | [] => []
  | a :: rest => if selects_handler a then a :: accepted_prefix rest else []
  end.

(** The first call that does not return such an option: the end of the
    options, when the answers run out. *)
Fixpoint stopper (answers : list answer) : answer :=
  match answers with
  | [] => {| value := -1; diagnostic := None |}
  | a :: rest => if selects_handler a then stopper rest else a
  end.
End osmium_area_test.

(** ** Proof steps *)

(** Unfolds the monad down to the platform's answers. *)
Ltac unfold_monad :=
  unfold bind, ret, throw, catch_all, unwinding, noexcept, get_this, set_this,
    outside, result, final, emitted,
    detail.reliable_write, detail.reliable_fsync, detail.reliable_close,
    detail.reliable_read, detail.remove_buffered_pages, detail.file_size,
    detail.perform in *.

(** Case analysis on the next answer of the platform in the goal. *)
Ltac platform_answer :=
  match goal with
  | |- context [sys_write ?os ?fd ?d ?e] =>
      let r := fresh "r" in let e1 := fresh "e" in
      destruct (sys_write os fd d e) as [[r | r] e1] eqn:?
  | |- context [sys_fsync ?os ?fd ?e] =>
      let r := fresh "r" in let e1 := fresh "e" in
      destruct (sys_fsync os fd e) as [[r | r] e1] eqn:?
  | |- context [sys_close ?os ?fd ?e] =>
      let r := fresh "r" in let e1 := fresh "e" in
      destruct (sys_close os fd e) as [[r | r] e1] eqn:?
  | |- context [sys_read ?os ?fd ?n ?e] =>
      let r := fresh "r" in let e1 := fresh "e" in
      destruct (sys_read os fd n e) as [[r | r] e1] eqn:?
  | |- context [sys_file_size ?os ?fd ?e] =>
      let r := fresh "r" in let e1 := fresh "e" in
      destruct (sys_file_size os fd e) as [[r | r] e1] eqn:?
  end.

(** * Properties *)

Section NoCompressorFacts.
Context {env : Type} (os : platform env).
Import NoCompressor.

Lemma size_t_add_0_l (n : N) : n < size_t_modulus -> size_t_add 0 n = n.
Proof. intros H. unfold size_t_add. rewrite N.add_0_l. now apply N.mod_small. Qed.

(** A closed compressor: [close()] does nothing at all. *)
Lemma close_closed (c : t) (e : env) :
  (m_fd c < 0)%Z -> close os (c, e) = (returns tt, (c, e), []).
Proof.
  intros H. unfold close. unfold_monad. simpl.
  destruct (Z.leb_spec 0 (m_fd c)); [lia | reflexivity].
Qed.

(** Whatever [close()] does, it leaves the descriptor field at -1 or below
    and the byte counter as it was. *)
Lemma close_state (c : t) (e : env) :
  (m_fd (fst (final (close os (c, e)))) < 0)%Z /\
  m_file_size (fst (final (close os (c, e)))) = m_file_size c.
Proof.
  unfold close. unfold_monad. simpl.
  destruct (Z.leb_spec 0 (m_fd c)); simpl; [| split; [lia | reflexivity]].
  destruct (m_fd c =? 1)%Z; simpl; [split; [lia | reflexivity] |].
  destruct (Compressor.do_fsync (base c)); simpl;
    repeat (platform_answer; simpl); split; (lia || reflexivity).
Qed.

(** C3. [NoCompressor::close()]: a second call does nothing and returns
    normally; on the standard-output descriptor (1) the first call emits no
    platform call at all; on any other open descriptor the platform calls
    are an fsync exactly when the sync policy is [yes], followed by the
    close of the descriptor (which is reached unless the fsync threw). *)
Theorem NoCompressor_close_contract (c : t) (e : env) :
  let r := close os (c, e) in
  let fd := m_fd c in
  close os (final r) = (returns tt, final r, []) /\
  (fd = 1%Z -> r = (returns tt, (with_fd (-1) c, e), [])) /\
  ((0 <= fd)%Z -> fd <> 1%Z ->
     match Compressor.m_fsync (base c) with
     | yes =>
         match sys_fsync os fd e with
         | (returns _, _) => emitted r = [ev_reliable_fsync fd; ev_reliable_close fd]
         | (throws x, _) => emitted r = [ev_reliable_fsync fd] /\ result r = throws x
         end
     | no => emitted r = [ev_reliable_close fd]
     end).
Proof.
  intros r fd. split; [| split].
  - destruct (final r) as [c1 e1] eqn:Hf.
    apply close_closed.
    pose proof (close_state c e) as [H _]. fold r in H. rewrite Hf in H. exact H.
  - intros Hfd. subst r fd. unfold close. unfold_monad. simpl.
    rewrite Hfd. reflexivity.
  - intros Hopen Hout. subst r. unfold close. unfold_monad. simpl.
    destruct (Z.leb_spec 0 (m_fd c)); [| lia].
    destruct (Z.eqb_spec (m_fd c) 1); [contradiction |].
    unfold Compressor.do_fsync. fold fd.
    destruct (Compressor.m_fsync (base c)); simpl.
    + platform_answer; reflexivity.
    + destruct (sys_fsync os fd e) as [[u | x] e1]; simpl.
      * platform_answer; reflexivity.
      * split; reflexivity.
Qed.

(** *** The byte counter *)

Import NoCompressorClient.

(** One [write]: the platform is handed the chunk as it is, once; the
    counter moves only when the platform returned. *)
Lemma write_step (c : t) (e : env) (data : bytes) :
  let r := write os data (c, e) in
  emitted r = [ev_reliable_write (m_fd c) data] /\
  snd (final r) = snd (sys_write os (m_fd c) data e) /\
  m_fd (fst (final r)) = m_fd c /\
  base (fst (final r)) = base c /\
  match fst (sys_write os (m_fd c) data e) with
  | returns _ =>
      result r = returns tt /\
      m_file_size (fst (final r)) = size_t_add (m_file_size c) (string_size data)
  | throws x =>
      result r = throws x /\ m_file_size (fst (final r)) = m_file_size c
  end.
Proof.
  unfold write. unfold_monad. simpl.
  platform_answer; simpl; repeat split; reflexivity.
Qed.

Lemma write_all_from (chunks : list bytes) (c : t) (e : env) :
  let r := write_all os chunks (c, e) in
  m_file_size c < size_t_modulus ->
  result r = returns tt ->
  emitted r = map (ev_reliable_write (m_fd c)) chunks /\
  m_fd (fst (final r)) = m_fd c /\
  base (fst (final r)) = base c /\
  m_file_size (fst (final r))
  = (m_file_size c + total_size chunks) mod size_t_modulus.
Proof.
  revert c e. induction chunks as [| chunk rest IH]; intros c e r Hc Hr.
  - subst r. simpl. repeat split.
    rewrite N.add_0_r. symmetry. now apply N.mod_small.
  - subst r. simpl in *.
    pose proof (write_step c e chunk) as (Hev & _ & Hfd & Hbase & Hw).
    unfold bind in *. unfold result, final, emitted in *.
    destruct (write os chunk (c, e)) as [[[u | x] [c1 e1]] t1]; simpl in *.
    + destruct (fst (sys_write os (m_fd c) chunk e));
        destruct Hw as [Hw1 Hw2]; [| discriminate].
      assert (Hc1 : m_file_size c1 < size_t_modulus).
      { rewrite Hw2. unfold size_t_add. apply N.mod_lt. discriminate. }
      specialize (IH c1 e1 Hc1).
      destruct (write_all os rest (c1, e1)) as [[r2 [c2 e2]] t2]; simpl in *.
      specialize (IH Hr). destruct IH as (IH1 & IH2 & IH3 & IH4).
      rewrite Hev, IH1, Hfd. repeat split; try congruence.
      rewrite IH4, Hw2. unfold size_t_add.
      rewrite N.Div0.add_mod_idemp_l. f_equal. lia.
    + discriminate.
Qed.

(** C4 (as amended). Starting from a new [NoCompressor], every [write]
    hands its chunk unchanged to [reliable_write], once, and adds the
    chunk's length to the counter in [std::size_t] arithmetic; after a
    sequence of writes that all returned, [file_size()] is the sum of the
    chunk lengths modulo [2^64], hence the sum itself when that is below
    [2^64]; [close()] and a second [close()] leave [file_size()] as it
    is. *)
Theorem NoCompressor_written_bytes (fd : Z) (sync : fsync)
    (chunks : list bytes) (e : env) :
  let r := write_all os chunks (make fd sync, e) in
  result r = returns tt ->
  (forall c e0 data,
      emitted (write os data (c, e0)) = [ev_reliable_write (m_fd c) data] /\
      (result (write os data (c, e0)) = returns tt ->
       file_size (fst (final (write os data (c, e0))))
       = size_t_add (file_size c) (string_size data))) /\
  emitted r = map (ev_reliable_write fd) chunks /\
  file_size (fst (final r)) = total_size chunks mod size_t_modulus /\
  (total_size chunks < size_t_modulus ->
   file_size (fst (final r)) = total_size chunks) /\
  file_size (fst (final (close os (final r)))) = file_size (fst (final r)) /\
  file_size (fst (final (close os (final (close os (final r))))))
  = file_size (fst (final r)).
Proof.
  intros r Hr.
  assert (H0 : m_file_size (make fd sync) < size_t_modulus) by reflexivity.
  pose proof (write_all_from chunks (make fd sync) e H0 Hr) as (He & _ & _ & Hs).
  fold r in He, Hs. simpl in He, Hs.
  split; [| split; [exact He | split; [exact Hs | split; [| split]]]].
  - intros c e0 data.
    pose proof (write_step c e0 data) as (Hev & _ & _ & _ & Hw).
    split; [exact Hev |]. intros Hret. unfold file_size.
    destruct (fst (sys_write os (m_fd c) data e0)); destruct Hw as [Hw1 Hw2];
      [exact Hw2 | congruence].
  - intros Hlt. unfold file_size. rewrite Hs. now apply N.mod_small.
  - destruct (final r) as [c1 e1]. apply close_state.
  - destruct (final r) as [c1 e1]. simpl.
    destruct (final (close os (c1, e1))) as [c2 e2] eqn:Hc.
    unfold file_size.
    rewrite (proj2 (close_state c2 e2)).
    pose proof (proj2 (close_state c1 e1)) as H. rewrite Hc in H. exact H.
Qed.

(** *** Platform calls over a lifetime *)

Lemma count_app (p : event -> bool) (xs ys : list event) :
  count p (xs ++ ys) = (count p xs + count p ys)%nat.
Proof. unfold count. rewrite List.filter_app, length_app. reflexivity. Qed.

Lemma close_budget (p : event -> bool) (c : t) (e : env) :
  p = is_fsync \/ p = is_close ->
  (count p (emitted (close os (c, e))) <= budget c)%nat /\
  budget (fst (final (close os (c, e)))) = 0%nat.
Proof.
  intros Hp. split.
  - unfold budget, close, count. unfold_monad. simpl.
    destruct (0 <=? m_fd c)%Z; simpl; [| lia].
    destruct (m_fd c =? 1)%Z; simpl; [lia |].
    destruct (Compressor.do_fsync (base c)); simpl;
      repeat (platform_answer; simpl);
      destruct Hp as [-> | ->]; simpl; lia.
  - pose proof (proj1 (close_state c e)) as H. unfold budget.
    destruct (Z.leb_spec 0 (m_fd (fst (final (close os (c, e)))))); [lia | reflexivity].
Qed.

Lemma call_budget (p : event -> bool) (m : method) (c : t) (e : env) :
  p = is_fsync \/ p = is_close ->
  (count p (emitted (call os m (c, e))) + budget (fst (final (call os m (c, e))))
   <= budget c)%nat.
Proof.
  intros Hp. destruct m as [data | |]; simpl.
  - pose proof (write_step c e data) as (Hev & _ & Hfd & _).
    simpl in Hev, Hfd. rewrite Hev. unfold budget. rewrite Hfd.
    destruct (0 <=? m_fd c)%Z; destruct Hp as [-> | ->]; unfold count; simpl; lia.
  - pose proof (close_budget p c e Hp) as [H1 H2]. lia.
  - unfold_monad. simpl. unfold count. simpl. lia.
Qed.

Lemma calls_budget (p : event -> bool) (ms : list method) (c : t) (e : env) :
  p = is_fsync \/ p = is_close ->
  (count p (emitted (calls os ms (c, e))) + budget (fst (final (calls os ms (c, e))))
   <= budget c)%nat /\
  result (calls os ms (c, e)) = returns tt.
Proof.
  intros Hp. revert c e. induction ms as [| m rest IH]; intros c e; simpl.
  - unfold_monad. simpl. unfold count. simpl. split; [lia | reflexivity].
  - pose proof (call_budget p m c e Hp) as Hm.
    unfold bind, catch_all. unfold result, final, emitted in *.
    destruct (call os m (c, e)) as [[r1 [c1 e1]] t1]; simpl in *.
    specialize (IH c1 e1).
    destruct (calls os rest (c1, e1)) as [[r2 [c2 e2]] t2]; simpl in *.
    rewrite count_app. split; [lia | tauto].
Qed.

(** C10. [close()] leaves the descriptor field negative whatever the
    platform answers, also when fsync or close throws, so that a later
    [close()] returns at once without a platform call; over the whole life
    of an instance (any calls, each possibly throwing, then the
    destructor, which never throws) at most one fsync and at most one
    close reach the platform. *)
Theorem NoCompressor_closes_at_most_once (fd : Z) (sync : fsync)
    (ms : list method) (e : env) :
  let r := lifetime os fd sync ms e in
  (forall c e0,
      (m_fd (fst (final (close os (c, e0)))) < 0)%Z /\
      close os (final (close os (c, e0)))
      = (returns tt, final (close os (c, e0)), [])) /\
  result r = returns tt /\
  (count is_fsync (emitted r) <= 1)%nat /\
  (count is_close (emitted r) <= 1)%nat.
Proof.
  intros r. split.
  - intros c e0. split; [apply close_state |].
    destruct (final (close os (c, e0))) as [c1 e1] eqn:Hf.
    apply close_closed.
    pose proof (proj1 (close_state c e0)) as H. rewrite Hf in H. exact H.
  - assert (Hall : forall p, p = is_fsync \/ p = is_close ->
              result r = returns tt /\ (count p (emitted r) <= 1)%nat).
    { intros p Hp. subst r. unfold lifetime, destroy.
      pose proof (calls_budget p ms (make fd sync) e Hp) as [Hb Hr].
      unfold bind, catch_all. unfold result, final, emitted in *.
      destruct (calls os ms (make fd sync, e)) as [[r1 [c1 e1]] t1]; simpl in *.
      subst r1.
      pose proof (close_budget p c1 e1 Hp) as [Hc _].
      unfold emitted in Hc.
      destruct (close os (c1, e1)) as [[r2 s2] t2]; simpl in *.
      rewrite count_app. split; [reflexivity |].
      assert (budget (make fd sync) <= 1)%nat
        by (unfold budget; destruct (0 <=? m_fd (make fd sync))%Z; lia).
      lia. }
    destruct (Hall is_fsync (or_introl eq_refl)) as [Hr Hf].
    destruct (Hall is_close (or_intror eq_refl)) as [_ Hc].
    auto.
Qed.
End NoCompressorFacts.

(** A disk whose fsync fails: the close of the descriptor is not reached,
    and the second [close()] does nothing. *)
Lemma NoCompressor_close_contract_witness :
  let r := NoCompressor.close sample.broken_disk (NoCompressor.make 3 yes, tt) in
  emitted r = [ev_reliable_fsync 3] /\
  result r = throws (system_error 5 "Fsync failed") /\
  NoCompressor.close sample.broken_disk (final r) = (returns tt, final r, []).
Proof.
  intros r.
  destruct (NoCompressor_close_contract sample.broken_disk (NoCompressor.make 3 yes) tt)
    as (Hagain & _ & Hopen).
  assert (H0 : (0 <= NoCompressor.m_fd (NoCompressor.make 3 yes))%Z) by (simpl; lia).
  assert (H1 : NoCompressor.m_fd (NoCompressor.make 3 yes) <> 1%Z) by (simpl; lia).
  destruct (Hopen H0 H1) as [Hev Hres].
  split; [exact Hev |]. split; [exact Hres | exact Hagain].
Defined.

(** The same disk over a whole life: a write, two [close()], the
    destructor. *)
Lemma NoCompressor_closes_at_most_once_witness :
  let r := NoCompressorClient.lifetime sample.broken_disk 3 yes
             [NoCompressorClient.call_write sample.ab;
              NoCompressorClient.call_close;
              NoCompressorClient.call_close] tt in
  emitted r = [ev_reliable_write 3 sample.ab; ev_reliable_fsync 3] /\
  result r = returns tt /\
  (count is_fsync (emitted r) <= 1)%nat /\
  (count is_close (emitted r) <= 1)%nat.
Proof.
  intros r.
  destruct (NoCompressor_closes_at_most_once sample.broken_disk 3 yes
              [NoCompressorClient.call_write sample.ab;
               NoCompressorClient.call_close;
               NoCompressorClient.call_close] tt) as (_ & Hr & Hf & Hc).
  split; [reflexivity |]. split; [exact Hr |]. split; [exact Hf | exact Hc].
Defined.

(** The run of the specification's example: "ab", then "cd", then two
    [close()]. *)
Lemma NoCompressor_written_bytes_witness :
  let r := NoCompressorClient.write_all sample.memory_file [sample.ab; sample.cd]
             (NoCompressor.make 3 yes, sample.empty_file) in
  result r = returns tt /\
  sample.contents (snd (final r)) = list_byte_of_string "abcd" /\
  NoCompressor.file_size (fst (final r)) = 4 /\
  NoCompressor.file_size
    (fst (final (NoCompressor.close sample.memory_file
                   (final (NoCompressor.close sample.memory_file (final r)))))) = 4.
Proof.
  intros r.
  assert (Hr : result r = returns tt) by reflexivity.
  pose proof (NoCompressor_written_bytes sample.memory_file 3 yes
                [sample.ab; sample.cd] sample.empty_file Hr)
    as (_ & _ & _ & Hsum & _ & Hclosed).
  fold r in Hsum, Hclosed.
  assert (Hfour : NoCompressor.file_size (fst (final r)) = 4)
    by (apply Hsum; reflexivity).
  split; [exact Hr |].
  split; [reflexivity |].
  split; [exact Hfour |].
  now rewrite Hclosed.
Defined.

Lemma sink_write_all_returns (chunks : list bytes) (c : NoCompressor.t) :
  result (NoCompressorClient.write_all sample.sink chunks (c, tt)) = returns tt.
Proof.
  revert c. induction chunks as [| chunk rest IH]; intros c; [reflexivity |].
  simpl. unfold bind, NoCompressor.write. unfold_monad. simpl.
  specialize (IH (NoCompressor.with_file_size
                    (size_t_add (NoCompressor.m_file_size c) (string_size chunk)) c)).
  unfold result in IH.
  destruct (NoCompressorClient.write_all sample.sink rest _) as [[r2 s2] t2].
  exact IH.
Qed.

Lemma total_size_replicate (chunk : bytes) (k : nat) :
  total_size (replicate k chunk) = N.of_nat k * string_size chunk.
Proof.
  induction k as [| k IH]; [reflexivity |].
  simpl replicate. unfold total_size in *. simpl foldr. rewrite IH. lia.
Qed.

(** C4, as it was stated, fails once the chunk lengths add up to [2^64]:
    after [2^63] writes of "ab" the counter is back at 0. *)
Lemma NoCompressor_counter_wraps :
  let chunks := replicate (N.to_nat (2 ^ 63)) sample.ab in
  let r := NoCompressorClient.write_all sample.sink chunks (NoCompressor.make 3 no, tt) in
  result r = returns tt /\
  total_size chunks = 2 ^ 64 /\
  NoCompressor.file_size (fst (final r)) = 0.
Proof.
  assert (H : forall k : nat, N.of_nat k = 2 ^ 63 ->
    let chunks := replicate k sample.ab in
    let r := NoCompressorClient.write_all sample.sink chunks (NoCompressor.make 3 no, tt) in
    result r = returns tt /\
    total_size chunks = 2 ^ 64 /\
    NoCompressor.file_size (fst (final r)) = 0).
  { intros k Hk chunks r.
    assert (Hr : result r = returns tt) by apply sink_write_all_returns.
    assert (Ht : total_size chunks = 2 ^ 64).
    { unfold chunks. rewrite total_size_replicate, Hk. reflexivity. }
    assert (H0 : NoCompressor.m_file_size (NoCompressor.make 3 no) < size_t_modulus)
      by reflexivity.
    pose proof (write_all_from sample.sink chunks (NoCompressor.make 3 no) tt H0 Hr)
      as (_ & _ & _ & Hsum).
    fold r in Hsum. simpl in Hsum. unfold NoCompressor.file_size.
    rewrite Hsum, Ht. split; [exact Hr |]. split; reflexivity. }
  apply H, N2Nat.id.
Qed.

Section NoDecompressorFacts.
Context {env : Type} (os : platform env).
Import NoDecompressor.

Lemma string_resize_stored (delivered buffer : bytes) :
  string_resize (string_size delivered) (stored_at_begin delivered buffer) = delivered.
Proof.
  unfold string_resize, stored_at_begin, string_size.
  rewrite Nat2N.id, take_app_length, length_app.
  replace (length delivered - (length delivered + length (drop (length delivered) buffer)))%nat
    with 0%nat by lia.
  apply app_nil_r.
Qed.

Lemma size_t_add_0_r (n : N) : n < size_t_modulus -> size_t_add n 0 = n.
Proof. intros H. unfold size_t_add. rewrite N.add_0_r. now apply N.mod_small. Qed.

(** [read()] on a buffer that has not been handed out yet. *)
Lemma read_buffer_first (d : t) (e : env) (memory : bytes) :
  m_buffer d = Some memory ->
  m_buffer_size d <> 0 ->
  read os (d, e)
  = (returns (take (N.to_nat (m_buffer_size d)) memory),
     (let o := size_t_add (m_offset d)
                 (string_size (take (N.to_nat (m_buffer_size d)) memory)) in
      set_offset o (with_offset o (with_buffer_size 0 d)), e),
     []).
Proof.
  intros Hb Hs. unfold read. unfold_monad. simpl. rewrite Hb.
  destruct (N.eqb_spec (m_buffer_size d) 0); [contradiction |]. reflexivity.
Qed.

(** [read()] on a buffer that has been handed out, or is empty. *)
Lemma read_buffer_again (d : t) (e : env) (memory : bytes) :
  m_buffer d = Some memory ->
  m_buffer_size d = 0 ->
  read os (d, e)
  = (returns [],
     (let o := size_t_add (m_offset d) 0 in set_offset o (with_offset o d), e),
     []).
Proof.
  intros Hb Hs. unfold read. unfold_monad. simpl. rewrite Hb, Hs. reflexivity.
Qed.

(** [read()] on a descriptor. *)
Lemma read_descriptor (d : t) (e : env) :
  m_buffer d = None ->
  let hint := want_buffered_pages_removed d in
  let e0 := if hint
            then sys_remove_buffered_pages os (m_fd d) (Some (m_offset d)) e
            else e in
  let r := read os (d, e) in
  emitted r
  = (if hint then [ev_remove_buffered_pages (m_fd d) (Some (m_offset d))] else [])
    ++ [ev_reliable_read (m_fd d) Decompressor.input_buffer_size] /\
  snd (final r) = snd (sys_read os (m_fd d) Decompressor.input_buffer_size e0) /\
  match fst (sys_read os (m_fd d) Decompressor.input_buffer_size e0) with
  | returns delivered =>
      result r = returns delivered /\
      fst (final r)
      = (let o := size_t_add (m_offset d) (string_size delivered) in
         set_offset o (with_offset o d))
  | throws x => result r = throws x /\ fst (final r) = d
  end.
Proof.
  intros Hb hint e0 r. subst r e0 hint.
  unfold read. unfold_monad. simpl. rewrite Hb.
  destruct (want_buffered_pages_removed d); simpl;
    platform_answer; simpl; rewrite ?string_resize_stored;
    repeat split; try reflexivity; destruct d; reflexivity.
Qed.

(** C5. A [NoDecompressor] over a buffer of [n] bytes (the first [n] bytes
    found at the pointer it is given): the first [read()] returns the whole
    buffer as one chunk of length [n], without any platform call, and leaves
    [offset()] at [n]; every later [read()] returns the empty chunk and
    changes nothing, so [offset()] stays [n]. *)
Theorem NoDecompressor_buffer_read (memory : bytes) (n : N) (e : env) :
  n <= string_size memory ->
  n < size_t_modulus ->
  let buffer := take (N.to_nat n) memory in
  let r := read os (make_buffer (Some memory) n, e) in
  result r = returns buffer /\
  string_size buffer = n /\
  emitted r = [] /\
  offset (fst (final r)) = n /\
  forall e1, read os (fst (final r), e1) = (returns [], (fst (final r), e1), []).
Proof.
  intros Hmem Hn buffer r.
  assert (Hlen : string_size buffer = n).
  { unfold buffer, string_size in *. rewrite length_take. lia. }
  destruct (N.eq_dec n 0) as [Hz | Hnz].
  - subst r.
    rewrite (read_buffer_again (make_buffer (Some memory) n) e memory eq_refl Hz).
    unfold result, final, emitted. simpl. unfold buffer. rewrite Hz.
    split; [reflexivity |]. split; [reflexivity |]. split; [reflexivity |].
    split; [reflexivity |].
    intros e1. erewrite read_buffer_again by reflexivity.
    reflexivity.
  - subst r.
    rewrite (read_buffer_first (make_buffer (Some memory) n) e memory eq_refl Hnz).
    unfold result, final, emitted. simpl. fold buffer. rewrite Hlen.
    rewrite (size_t_add_0_l n Hn).
    split; [reflexivity |]. split; [reflexivity |]. split; [reflexivity |].
    split; [reflexivity |].
    intros e1. erewrite read_buffer_again by reflexivity.
    simpl. rewrite (size_t_add_0_r n Hn). reflexivity.
Qed.

(** C6. A [NoDecompressor] over a descriptor: each [read()] asks the
    platform once, for 1024 * 1024 bytes, after the eviction hint (up to the
    bytes consumed so far) when the flag is set and without a hint when it
    is not; it returns exactly the bytes the platform delivered and moves
    [offset()] by their number. On a new instance whose source delivers
    nothing, the first [read()] returns the empty chunk and [offset()] stays
    0. *)
Theorem NoDecompressor_descriptor_read (d : t) (e : env) :
  m_buffer d = None ->
  let hint := want_buffered_pages_removed d in
  let e0 := if hint
            then sys_remove_buffered_pages os (m_fd d) (Some (m_offset d)) e
            else e in
  let r := read os (d, e) in
  emitted r
  = (if hint then [ev_remove_buffered_pages (m_fd d) (Some (m_offset d))] else [])
    ++ [ev_reliable_read (m_fd d) (1024 * 1024)] /\
  match sys_read os (m_fd d) (1024 * 1024) e0 with
  | (returns delivered, e1) =>
      result r = returns delivered /\
      snd (final r) = e1 /\
      offset (fst (final r)) = size_t_add (m_offset d) (string_size delivered)
  | (throws x, e1) =>
      result r = throws x /\ snd (final r) = e1 /\ offset (fst (final r)) = offset d
  end /\
  forall fd,
    fst (sys_read os fd (1024 * 1024) e) = returns [] ->
    result (read os (make_fd fd, e)) = returns [] /\
    offset (fst (final (read os (make_fd fd, e)))) = 0.
Proof.
  intros Hb hint e0 r.
  pose proof (read_descriptor d e Hb) as (Hev & Henv & Hres).
  fold hint e0 r in Hev, Henv, Hres.
  change Decompressor.input_buffer_size with (1024 * 1024) in Hev, Henv, Hres.
  split; [exact Hev |]. split.
  - destruct (sys_read os (m_fd d) (1024 * 1024) e0) as [[delivered | x] e1];
      simpl in Henv, Hres; destruct Hres as [Hr Hd];
      (split; [exact Hr |]); (split; [exact Henv |]); rewrite Hd; reflexivity.
  - intros fd Hempty.
    pose proof (read_descriptor (make_fd fd) e eq_refl) as (_ & _ & Hfresh).
    change Decompressor.input_buffer_size with (1024 * 1024) in Hfresh.
    simpl in Hfresh. rewrite Hempty in Hfresh. destruct Hfresh as [Hr Hd].
    split; [exact Hr |]. rewrite Hd. reflexivity.
Qed.

(** *** The offset *)

Lemma size_t_add_lt (a b : N) : size_t_add a b < size_t_modulus.
Proof. unfold size_t_add. apply N.mod_lt. discriminate. Qed.

(** One [read()]: the counters stay in step and move by the length of the
    chunk handed out; the descriptor, the buffer pointer and the recorded
    file size stay. *)
Lemma read_moves_offset (d : t) (e : env) :
  in_step d ->
  let r := read os (d, e) in
  let d1 := fst (final r) in
  in_step d1 /\
  m_offset d1 = size_t_add (m_offset d) (string_size (chunk_of (result r, 0))) /\
  m_buffer d1 = m_buffer d /\ m_fd d1 = m_fd d /\ file_size d1 = file_size d /\
  want_buffered_pages_removed d1 = want_buffered_pages_removed d.
Proof.
  intros [Hs Hlt] r d1. subst d1 r.
  destruct (m_buffer d) as [memory |] eqn:Hb.
  - destruct (N.eq_dec (m_buffer_size d) 0) as [Hz | Hnz].
    + rewrite (read_buffer_again d e memory Hb Hz).
      unfold result, final, chunk_of, in_step. simpl.
      pose proof (size_t_add_lt (m_offset d) 0).
      repeat split; trivial.
    + rewrite (read_buffer_first d e memory Hb Hnz).
      unfold result, final, chunk_of, in_step. simpl.
      pose proof (size_t_add_lt (m_offset d)
                    (string_size (take (N.to_nat (m_buffer_size d)) memory))).
      repeat split; trivial.
  - pose proof (read_descriptor d e Hb) as (_ & _ & Hres).
    simpl in Hres.
    destruct (fst (sys_read os (m_fd d) Decompressor.input_buffer_size _))
      as [delivered | x]; destruct Hres as [Hr Hd]; rewrite Hd;
      unfold chunk_of; simpl; rewrite Hr.
    + unfold in_step. simpl.
      pose proof (size_t_add_lt (m_offset d) (string_size delivered)).
      repeat split; trivial.
    + split; [split; assumption |].
      split; [symmetry; exact (size_t_add_0_r _ Hlt) |].
      repeat split; trivial.
Qed.

Lemma drain_length (k : nat) (s : t * env) : length (fst (drain os k s)) = k.
Proof.
  revert s. induction k as [| k IH]; intros s; simpl; [reflexivity |].
  destruct (read os s) as [[r s1] t1].
  specialize (IH s1). destruct (drain os k s1) as [seen s2]. simpl in *.
  now rewrite IH.
Qed.

Lemma total_size_cons (chunk : bytes) (chunks : list bytes) :
  total_size (chunk :: chunks) = string_size chunk + total_size chunks.
Proof. reflexivity. Qed.

Lemma chunk_of_fst (r : outcome bytes) (a b : N) : chunk_of (r, a) = chunk_of (r, b).
Proof. reflexivity. Qed.

Lemma drain_step (k : nat) (s : t * env) :
  drain os (S k) s
  = ((result (read os s), offset (fst (final (read os s))))
       :: fst (drain os k (final (read os s))),
     snd (drain os k (final (read os s)))).
Proof.
  simpl. unfold result, final.
  destruct (read os s) as [[r s1] t1]. simpl.
  destruct (drain os k s1) as [seen s2]. reflexivity.
Qed.

(** After each call, [offset()] is the number of bytes handed out so far,
    counted from where the instance stood, modulo [2^64]. *)
Lemma drain_offsets (k : nat) (d : t) (e : env) :
  in_step d ->
  forall i o,
    fst (drain os k (d, e)) !! i = Some o ->
    snd o = (m_offset d
             + total_size (chunk_of <$> take (S i) (fst (drain os k (d, e)))))
            mod size_t_modulus.
Proof.
  revert d e. induction k as [| k IH]; intros d e Hd i o Hi.
  - discriminate.
  - rewrite drain_step in Hi |- *.
    pose proof (read_moves_offset d e Hd) as (Hd1 & Hm & _).
    destruct (final (read os (d, e))) as [d1 e1] eqn:Hf.
    cbn [fst snd] in *.
    specialize (IH d1 e1 Hd1).
    destruct i as [| i].
    + injection Hi as <-. cbn [snd take fmap list_fmap].
      rewrite total_size_cons.
      rewrite (chunk_of_fst (result (read os (d, e))) (offset d1) 0).
      destruct Hd1 as [-> _]. rewrite Hm. unfold size_t_add.
      f_equal. change (total_size (chunk_of <$> take 0 _)) with 0. lia.
    + change (((result (read os (d, e)), offset d1)
                 :: fst (drain os k (d1, e1))) !! S i)
        with (fst (drain os k (d1, e1)) !! i) in Hi.
      rewrite (IH i o Hi), Hm. unfold size_t_add.
      rewrite N.Div0.add_mod_idemp_l.
      rewrite firstn_cons, fmap_cons, total_size_cons.
      rewrite (chunk_of_fst (result (read os (d, e))) (offset d1) 0).
      f_equal. lia.
Qed.

Lemma total_size_take_le (chunks : list bytes) (i : nat) :
  total_size (take i chunks) <= total_size chunks.
Proof.
  revert i. induction chunks as [| c cs IH]; intros [| i]; simpl take;
    rewrite ?total_size_cons; try (change (total_size []) with 0); try lia.
  specialize (IH i). lia.
Qed.

Lemma total_size_take_mono (chunks : list bytes) (i j : nat) :
  (i <= j)%nat -> total_size (take i chunks) <= total_size (take j chunks).
Proof.
  intros Hij. replace (take i chunks) with (take i (take j chunks)).
  - apply total_size_take_le.
  - rewrite take_take. f_equal. lia.
Qed.

(** While the bytes handed out stay below [2^64], the offsets seen never
    decrease. *)
Lemma drain_monotone (k : nat) (d : t) (e : env) :
  in_step d ->
  m_offset d + total_size (chunk_of <$> fst (drain os k (d, e))) < size_t_modulus ->
  forall i j oi oj,
    (i <= j)%nat ->
    fst (drain os k (d, e)) !! i = Some oi ->
    fst (drain os k (d, e)) !! j = Some oj ->
    snd oi <= snd oj.
Proof.
  intros Hd Hlt i j oi oj Hij Hi Hj.
  rewrite (drain_offsets k d e Hd i oi Hi), (drain_offsets k d e Hd j oj Hj).
  rewrite !fmap_take.
  pose proof (total_size_take_le (chunk_of <$> fst (drain os k (d, e))) (S j)).
  pose proof (total_size_take_mono (chunk_of <$> fst (drain os k (d, e))) (S i) (S j)).
  rewrite !N.mod_small; lia.
Qed.

(** *** Reading a regular file *)

Section RegularFile.
Context (fd : Z) (size : N) (unread : N -> env -> Prop).
Context (Hfile : regular_file os fd size unread).
Context (Hsize : size < size_t_modulus).

Lemma read_regular_file (left : N) (d : t) (e : env) :
  at_position fd size unread left d e ->
  let r := read os (d, e) in
  exists delivered,
    result r = returns delivered /\
    string_size delivered <= left /\
    (0 < left -> delivered <> []) /\
    offset (fst (final r)) = m_offset d + string_size delivered /\
    at_position fd size unread (left - string_size delivered) (fst (final r)) (snd (final r)).
Proof.
  intros (Hun & Hstep & Hb & Hfd & Hpos) r.
  pose proof (read_moves_offset d e Hstep) as (Hstep1 & Hm & Hb1 & Hfd1 & _).
  pose proof (read_descriptor d e Hb) as (_ & Henv & Hres).
  fold r in Hstep1, Hm, Hb1, Hfd1, Henv, Hres. cbn zeta in Henv, Hres.
  set (e0 := if want_buffered_pages_removed d
             then sys_remove_buffered_pages os (m_fd d) (Some (m_offset d)) e
             else e) in *.
  assert (Hun0 : unread left e0).
  { subst e0. destruct (want_buffered_pages_removed d); [| exact Hun].
    rewrite Hfd. now apply (rf_hint _ _ _ _ Hfile). }
  destruct (rf_read _ _ _ _ Hfile left e0 Decompressor.input_buffer_size Hun0)
    as (delivered & e1 & Hread & Hlen & Hne & Hun1).
  rewrite Hfd in Henv, Hres. rewrite Hread in Henv, Hres.
  cbn [fst snd] in Henv, Hres. destruct Hres as [Hr Hd1].
  exists delivered.
  assert (Hle : string_size delivered <= left) by lia.
  assert (Hadd : size_t_add (m_offset d) (string_size delivered)
                 = m_offset d + string_size delivered).
  { unfold size_t_add. apply N.mod_small. lia. }
  rewrite Hr in Hm. unfold chunk_of in Hm. cbn [fst] in Hm. rewrite Hadd in Hm.
  split; [exact Hr |]. split; [exact Hle |].
  split; [intros Hpos0; apply Hne; [reflexivity | exact Hpos0] |].
  split; [destruct Hstep1 as [-> _]; exact Hm |].
  unfold at_position. rewrite Henv, Hb1, Hfd1, Hm.
  repeat split; try assumption; try apply Hstep1. lia.
Qed.

(** Once nothing is left, every [read()] returns the empty chunk. *)
Lemma drain_at_end (k : nat) (d : t) (e : env) :
  at_position fd size unread 0 d e ->
  forall j o, fst (drain os k (d, e)) !! j = Some o -> fst o = returns [].
Proof.
  revert d e. induction k as [| k IH]; intros d e Hpos j o Hj.
  - discriminate.
  - rewrite drain_step in Hj.
    destruct (read_regular_file 0 d e Hpos)
      as (delivered & Hr & Hle & _ & _ & Hpos1).
    assert (Hnil : delivered = []).
    { destruct delivered; [reflexivity |]. unfold string_size in Hle. simpl in Hle. lia. }
    subst delivered. change (string_size []) with 0 in Hpos1.
    destruct (final (read os (d, e))) as [d1 e1].
    cbn [fst snd] in *. destruct j as [| j].
    + injection Hj as <-. exact Hr.
    + exact (IH d1 e1 Hpos1 j o Hj).
Qed.

Lemma drain_regular_file_total (k : nat) (left : N) (d : t) (e : env) :
  at_position fd size unread left d e ->
  total_size (chunk_of <$> fst (drain os k (d, e))) <= left.
Proof.
  revert left d e. induction k as [| k IH]; intros left d e Hpos.
  - apply N.le_0_l.
  - rewrite drain_step.
    destruct (read_regular_file left d e Hpos)
      as (delivered & Hr & Hle & _ & _ & Hpos1).
    destruct (final (read os (d, e))) as [d1 e1].
    cbn [fst snd] in *. rewrite fmap_cons, total_size_cons.
    specialize (IH _ d1 e1 Hpos1).
    unfold chunk_of at 1. cbn [fst]. rewrite Hr. lia.
Qed.

Lemma drain_regular_file (k : nat) (left : N) (d : t) (e : env) :
  at_position fd size unread left d e ->
  forall i o,
    fst (drain os k (d, e)) !! i = Some o ->
    exists chunk,
      fst o = returns chunk /\
      snd o <= size /\
      (chunk = [] -> snd o = size) /\
      (snd o = size ->
       forall j o', (i < j)%nat ->
         fst (drain os k (d, e)) !! j = Some o' -> fst o' = returns []).
Proof.
  revert left d e. induction k as [| k IH]; intros left d e Hpos i o Hi.
  - discriminate.
  - rewrite drain_step in Hi |- *.
    destruct (read_regular_file left d e Hpos)
      as (delivered & Hr & Hle & Hne & Hoff & Hpos1).
    pose proof Hpos as (_ & _ & _ & _ & Hsum).
    destruct (final (read os (d, e))) as [d1 e1].
    cbn [fst snd] in *. destruct i as [| i].
    + injection Hi as <-. cbn [fst snd]. exists delivered.
      split; [exact Hr |]. split; [lia |]. split.
      * intros ->. change (string_size []) with 0 in *.
        destruct (N.eq_dec left 0) as [-> | Hl]; [lia |].
        exfalso. apply Hne; [lia | reflexivity].
      * intros Hend [| j] o' Hlt Hj; [lia |].
        assert (Hz : left - string_size delivered = 0) by lia.
        rewrite Hz in Hpos1.
        exact (drain_at_end k d1 e1 Hpos1 j o' Hj).
    + destruct (IH _ d1 e1 Hpos1 i o Hi) as (chunk & H1 & H2 & H3 & H4).
      exists chunk. split; [exact H1 |]. split; [exact H2 |]. split; [exact H3 |].
      intros Hend [| j] o' Hlt Hj; [lia |].
      apply (H4 Hend j o'); [lia | exact Hj].
Qed.
End RegularFile.

(** A buffer hands out at most the bytes it was constructed with. *)
Lemma drain_buffer_total (k : nat) (d : t) (e : env) (memory : bytes) :
  m_buffer d = Some memory ->
  total_size (chunk_of <$> fst (drain os k (d, e))) <= m_buffer_size d.
Proof.
  revert d e. induction k as [| k IH]; intros d e Hb.
  - apply N.le_0_l.
  - rewrite drain_step. cbn [fst]. rewrite fmap_cons, total_size_cons.
    unfold chunk_of at 1. cbn [fst].
    destruct (N.eq_dec (m_buffer_size d) 0) as [Hz | Hnz].
    + rewrite (read_buffer_again d e memory Hb Hz).
      unfold result, final. cbn [fst snd].
      match goal with |- context [drain os k (?d1, e)] =>
        specialize (IH d1 e Hb) end.
      cbn in IH. change (string_size []) with 0. lia.
    + rewrite (read_buffer_first d e memory Hb Hnz).
      unfold result, final. cbn [fst snd].
      match goal with |- context [drain os k (?d1, e)] =>
        specialize (IH d1 e Hb) end.
      cbn in IH.
      assert (string_size (take (N.to_nat (m_buffer_size d)) memory)
              <= m_buffer_size d).
      { unfold string_size. rewrite length_take. lia. }
      lia.
Qed.

(** C7 (as amended). For every [NoDecompressor] that has not been read yet
    and every sequence of [read()] calls: after each call [offset()] is the
    sum of the lengths of the chunks returned so far modulo [2^64]; while
    that sum is below [2^64] (always so for a buffer, and for a descriptor
    that reads a regular file) [offset()] is the sum itself and the offsets
    seen never decrease. For a descriptor that reads a regular file from its
    start whose size was recorded as [file_size()]: every [read()] returns,
    [offset()] never exceeds [file_size()], it equals [file_size()] when a
    [read()] returns the empty chunk, and once it equals [file_size()] every
    later [read()] returns the empty chunk. *)
Theorem NoDecompressor_offset_accounting (d0 : t) (k : nat) (e : env) :
  unread_yet d0 ->
  let seen := fst (drain os k (d0, e)) in
  (forall i o, seen !! i = Some o ->
     snd o = total_size (chunk_of <$> take (S i) seen) mod size_t_modulus) /\
  (total_size (chunk_of <$> seen) < size_t_modulus ->
     (forall i o, seen !! i = Some o ->
        snd o = total_size (chunk_of <$> take (S i) seen)) /\
     (forall i j oi oj, (i <= j)%nat ->
        seen !! i = Some oi -> seen !! j = Some oj -> snd oi <= snd oj)) /\
  (forall memory, m_buffer d0 = Some memory ->
     m_buffer_size d0 < size_t_modulus ->
     total_size (chunk_of <$> seen) < size_t_modulus) /\
  (forall size unread,
     regular_file os (m_fd d0) size unread ->
     size < size_t_modulus ->
     unread size e ->
     m_buffer d0 = None ->
     file_size d0 = size ->
     total_size (chunk_of <$> seen) < size_t_modulus /\
     forall i o, seen !! i = Some o ->
       exists chunk,
         fst o = returns chunk /\
         snd o <= file_size d0 /\
         (chunk = [] -> snd o = file_size d0) /\
         (snd o = file_size d0 ->
          forall j o', (i < j)%nat -> seen !! j = Some o' -> fst o' = returns [])).
Proof.
  intros [Hown Hbase] seen.
  assert (Hstep : in_step d0).
  { split; [congruence |]. rewrite Hown. reflexivity. }
  assert (Hmod : forall i o, seen !! i = Some o ->
            snd o = total_size (chunk_of <$> take (S i) seen) mod size_t_modulus).
  { intros i o Hi. subst seen.
    rewrite (drain_offsets k d0 e Hstep i o Hi), Hown, N.add_0_l. reflexivity. }
  split; [exact Hmod |]. split; [| split].
  - intros Hlt. split.
    + intros i o Hi. rewrite (Hmod i o Hi). apply N.mod_small.
      rewrite fmap_take.
      pose proof (total_size_take_le (chunk_of <$> seen) (S i)). lia.
    + apply (drain_monotone k d0 e Hstep). rewrite Hown, N.add_0_l. exact Hlt.
  - intros memory Hb Hlt.
    pose proof (drain_buffer_total k d0 e memory Hb). fold seen in H. lia.
  - intros size unread Hfile Hsize Hun Hb Hfs.
    assert (Hpos : at_position (m_fd d0) size unread size d0 e).
    { unfold at_position. rewrite Hown, N.add_0_l. auto. }
    split.
    + pose proof (drain_regular_file_total (m_fd d0) size unread Hfile Hsize
                    k size d0 e Hpos). fold seen in H. lia.
    + rewrite Hfs.
      exact (drain_regular_file (m_fd d0) size unread Hfile Hsize k size d0 e Hpos).
Qed.
End NoDecompressorFacts.

(** The specification's example: "hello" in a buffer, read twice. *)
Lemma NoDecompressor_buffer_read_witness :
  let r := NoDecompressor.read sample.sink
             (NoDecompressor.make_buffer (Some sample.hello) 5, tt) in
  result r = returns sample.hello /\
  NoDecompressor.offset (fst (final r)) = 5 /\
  NoDecompressor.read sample.sink (fst (final r), tt)
  = (returns [], (fst (final r), tt), []).
Proof.
  assert (Hmem : 5 <= string_size sample.hello) by (vm_compute; discriminate).
  assert (Hn : 5 < size_t_modulus) by reflexivity.
  destruct (NoDecompressor_buffer_read sample.sink sample.hello 5 tt Hmem Hn)
    as (H1 & _ & _ & H3 & H4).
  split; [exact H1 |]. split; [exact H3 | exact (H4 tt)].
Defined.

(** The in-memory file is a regular file in the sense above. *)
Lemma memory_file_regular (fd : Z) (content : bytes) :
  regular_file sample.memory_file fd (string_size content)
    (fun left f =>
       sample.contents f = content /\
       N.of_nat (sample.position f) + left = string_size content).
Proof.
  split.
  - intros k f [_ H]. lia.
  - intros k f max [Hc Hp]. simpl.
    eexists _, _. split; [reflexivity |]. simpl.
    unfold string_size in *. rewrite length_take, length_drop, Hc.
    repeat split; try lia.
    intros Hmax Hk Hnil. apply (f_equal length) in Hnil.
    rewrite length_take, length_drop in Hnil. simpl in Hnil. lia.
  - intros k f upto H. exact H.
Qed.

(** Five bytes behind a descriptor, the eviction hint wanted. *)
Lemma NoDecompressor_descriptor_read_witness :
  let d := NoDecompressor.set_want_buffered_pages_removed true
             (NoDecompressor.make_fd 3) in
  let f := {| sample.contents := sample.hello; sample.position := 0 |} in
  let r := NoDecompressor.read sample.memory_file (d, f) in
  emitted r = [ev_remove_buffered_pages 3 (Some 0); ev_reliable_read 3 1048576] /\
  result r = returns sample.hello /\
  NoDecompressor.offset (fst (final r)) = 5.
Proof.
  intros d f r.
  destruct (NoDecompressor_descriptor_read sample.memory_file d f eq_refl)
    as (Hev & Hres & _).
  split; [exact Hev |].
  assert (Hread : sys_read sample.memory_file (NoDecompressor.m_fd d) (1024 * 1024)
                    (sys_remove_buffered_pages sample.memory_file
                       (NoDecompressor.m_fd d) (Some (NoDecompressor.m_offset d)) f)
                  = (returns sample.hello,
                     {| sample.contents := sample.hello; sample.position := 5 |}))
    by (vm_compute; reflexivity).
  cbn zeta in Hres.
  change (NoDecompressor.want_buffered_pages_removed d) with true in Hres.
  cbv iota in Hres. rewrite Hread in Hres.
  destruct Hres as (Hr & _ & Ho). split; [exact Hr | exact Ho].
Defined.

(** Five bytes behind a descriptor whose size was recorded, read three
    times. *)
Lemma NoDecompressor_offset_accounting_witness :
  let d0 := NoDecompressor.set_file_size 5 (NoDecompressor.make_fd 3) in
  let f := {| sample.contents := sample.hello; sample.position := 0 |} in
  let seen := fst (NoDecompressor.drain sample.memory_file 3 (d0, f)) in
  seen = [(returns sample.hello, 5); (returns [], 5); (returns [], 5)] /\
  (forall i j oi oj, (i <= j)%nat ->
     seen !! i = Some oi -> seen !! j = Some oj -> snd oi <= snd oj) /\
  (forall i o, seen !! i = Some o -> snd o <= NoDecompressor.file_size d0).
Proof.
  intros d0 f seen.
  assert (Hnew : NoDecompressor.unread_yet d0) by (split; reflexivity).
  destruct (NoDecompressor_offset_accounting sample.memory_file d0 3 f Hnew)
    as (_ & Hsum & _ & Hfile).
  fold seen in Hsum, Hfile.
  assert (Hseen : seen = [(returns sample.hello, 5); (returns [], 5); (returns [], 5)])
    by (vm_compute; reflexivity).
  assert (Hreg : regular_file sample.memory_file (NoDecompressor.m_fd d0)
                   (string_size sample.hello)
                   (fun left f0 =>
                      sample.contents f0 = sample.hello /\
                      N.of_nat (sample.position f0) + left = string_size sample.hello))
    by apply memory_file_regular.
  destruct (Hfile _ _ Hreg eq_refl (conj eq_refl eq_refl) eq_refl eq_refl)
    as [Hlt Hall].
  split; [exact Hseen |]. split; [exact (proj2 (Hsum Hlt)) |].
  intros i o Hi. destruct (Hall i o Hi) as (chunk & _ & Hle & _). exact Hle.
Defined.

Lemma endless_read (d : NoDecompressor.t) :
  NoDecompressor.m_buffer d = None ->
  result (NoDecompressor.read sample.endless (d, tt)) = returns sample.two_zero_bytes /\
  fst (final (NoDecompressor.read sample.endless (d, tt)))
  = (let o := size_t_add (NoDecompressor.m_offset d) 2 in
     NoDecompressor.set_offset o (NoDecompressor.with_offset o d)).
Proof.
  intros Hb.
  pose proof (read_descriptor sample.endless d tt Hb) as (_ & _ & Hres).
  cbv zeta in Hres.
  change (fst (sys_read sample.endless (NoDecompressor.m_fd d)
                 Decompressor.input_buffer_size
                 (if NoDecompressor.want_buffered_pages_removed d
                  then sys_remove_buffered_pages sample.endless
                         (NoDecompressor.m_fd d)
                         (Some (NoDecompressor.m_offset d)) tt
                  else tt)))
    with (returns sample.two_zero_bytes) in Hres.
  exact Hres.
Qed.

Lemma endless_total (k : nat) (d : NoDecompressor.t) :
  NoDecompressor.m_buffer d = None ->
  total_size (NoDecompressor.chunk_of
                <$> fst (NoDecompressor.drain sample.endless k (d, tt)))
  = 2 * N.of_nat k.
Proof.
  revert d. induction k as [| k IH]; intros d Hb; [reflexivity |].
  rewrite drain_step. cbn [fst]. rewrite fmap_cons, total_size_cons.
  destruct (endless_read d Hb) as [Hr Hd1].
  unfold NoDecompressor.chunk_of at 1. cbn [fst]. rewrite Hr.
  destruct (final (NoDecompressor.read sample.endless (d, tt))) as [d1 []].
  cbn [fst] in Hd1. rewrite IH by (rewrite Hd1; exact Hb).
  change (string_size sample.two_zero_bytes) with 2. lia.
Qed.

(** C7, as it was stated, fails on a source that delivers [2^64] bytes: after
    [2^63] reads of two bytes each, [offset()] is 0, below the 2 it was after
    the first read and not the sum of the chunk lengths. *)
Lemma NoDecompressor_offset_wraps :
  let seen := fst (NoDecompressor.drain sample.endless (N.to_nat (2 ^ 63))
                     (NoDecompressor.make_fd 3, tt)) in
  total_size (NoDecompressor.chunk_of <$> seen) = 2 ^ 64 /\
  seen !! 0%nat = Some (returns sample.two_zero_bytes, 2) /\
  snd <$> last seen = Some 0.
Proof.
  assert (H : forall k : nat, N.of_nat k = 2 ^ 63 ->
    let seen := fst (NoDecompressor.drain sample.endless k
                       (NoDecompressor.make_fd 3, tt)) in
    total_size (NoDecompressor.chunk_of <$> seen) = 2 ^ 64 /\
    seen !! 0%nat = Some (returns sample.two_zero_bytes, 2) /\
    snd <$> last seen = Some 0).
  { intros k Hk seen.
    assert (Htotal : total_size (NoDecompressor.chunk_of <$> seen) = 2 ^ 64).
    { unfold seen. rewrite endless_total, Hk; reflexivity. }
    assert (Hstep : NoDecompressor.in_step (NoDecompressor.make_fd 3)) by (split; reflexivity).
    assert (Hlen : length seen = k) by apply drain_length.
    destruct k as [| k]; [discriminate Hk |].
    split; [exact Htotal |]. split.
    - unfold seen. rewrite drain_step. cbn [fst lookup list_lookup].
      destruct (endless_read (NoDecompressor.make_fd 3) eq_refl) as [Hr Hd].
      rewrite Hr, Hd. reflexivity.
    - rewrite last_lookup, Hlen. cbn [pred].
      destruct (lookup_lt_is_Some_2 seen k) as [o Ho]; [lia |].
      rewrite Ho. cbn [fmap option_fmap option_map]. f_equal.
      pose proof (drain_offsets sample.endless (S k) (NoDecompressor.make_fd 3) tt
                    Hstep k o Ho) as Hoff.
      fold seen in Hoff. rewrite take_ge in Hoff by lia.
      rewrite Hoff, Htotal. reflexivity. }
  apply H, N2Nat.id.
Qed.

Section FactoryFacts.
Context {env : Type} (os : platform env).
Context {file_compression : Type} `{Countable file_compression}.
Context (as_string : file_compression -> string).
Context {C D : Type} `{!DecompressorClass env D}.
Import CompressionFactory.

Abbreviation factory :=
  (CompressionFactory.t (env := env) (file_compression := file_compression)
     (C := C) (D := D)).
Abbreviation callbacks :=
  (CompressionFactory.callbacks_type (env := env) (C := C) (D := D)).

Lemma find_callbacks_registered (f : factory) (compression : file_compression)
    (cb : callbacks) (e : env) :
  m_callbacks f !! compression = Some cb ->
  find_callbacks as_string f compression e = (returns cb, e, []).
Proof. intros Hl. unfold find_callbacks. rewrite Hl. reflexivity. Qed.

Lemma find_callbacks_missing (f : factory) (compression : file_compression) (e : env) :
  m_callbacks f !! compression = None ->
  find_callbacks as_string f compression e
  = (throws (unsupported_file_format_error
               ("Support for compression '" ++ as_string compression
                ++ "' not compiled into this binary")), e, []).
Proof.
  intros Hl. unfold find_callbacks. rewrite Hl. reflexivity.
Qed.

(** C1. For an identifier that has no constructor triple, each of the three
    creation operations throws [unsupported_file_format_error] with the
    message "Support for compression '<identifier>' not compiled into this
    binary", and does so at once: no callback is called, no platform
    primitive is called and the state of the platform is as before. *)
Theorem create_unregistered_is_unsupported (f : factory)
    (compression : file_compression) (fd : Z) (sync : fsync)
    (buffer : option bytes) (size : N) (e : env) :
  m_callbacks f !! compression = None ->
  let error :=
    unsupported_file_format_error
      ("Support for compression '" ++ as_string compression
       ++ "' not compiled into this binary") in
  create_compressor as_string f compression fd sync e = (throws error, e, []) /\
  create_decompressor os as_string f compression fd e = (throws error, e, []) /\
  create_decompressor_buffer as_string f compression buffer size e
  = (throws error, e, []).
Proof.
  intros Hl error.
  unfold create_compressor, create_decompressor, create_decompressor_buffer, bind.
  rewrite !(find_callbacks_missing f compression e Hl).
  repeat split.
Qed.

(** *** Registration *)

Lemma register_compression_absent (f : factory) (compression : file_compression)
    (cb : callbacks) :
  m_callbacks f !! compression = None ->
  register_compression compression (get0 cb) (get1 cb) (get2 cb) f
  = (true, {| m_callbacks := <[compression := cb]> (m_callbacks f) |}).
Proof.
  intros Hl. unfold register_compression, map_insert. simpl. rewrite Hl.
  destruct cb. reflexivity.
Qed.

Lemma register_compression_present (f : factory) (compression : file_compression)
    (old cb : callbacks) :
  m_callbacks f !! compression = Some old ->
  register_compression compression (get0 cb) (get1 cb) (get2 cb) f = (false, f).
Proof.
  intros Hl. unfold register_compression, map_insert. simpl. rewrite Hl.
  destruct f. reflexivity.
Qed.

Lemma register_compression_keeps (f : factory) (compression other : file_compression)
    (old cb : callbacks) :
  m_callbacks f !! compression = Some old ->
  m_callbacks (snd (register_compression other (get0 cb) (get1 cb) (get2 cb) f))
    !! compression = Some old.
Proof.
  intros Hl. destruct (m_callbacks f !! other) as [taken |] eqn:Ho.
  - rewrite (register_compression_present f other taken cb Ho). exact Hl.
  - rewrite (register_compression_absent f other cb Ho). simpl.
    rewrite lookup_insert_ne; [exact Hl | congruence].
Qed.

Lemma register_all_keeps (more : list (file_compression * callbacks)) (f : factory)
    (compression : file_compression) (old : callbacks) :
  m_callbacks f !! compression = Some old ->
  m_callbacks (register_all more f) !! compression = Some old.
Proof.
  revert f. induction more as [| [other cb] more IH]; intros f Hl; [exact Hl |].
  simpl. apply IH. now apply register_compression_keeps.
Qed.

Lemma create_compressor_registered (f : factory) (compression : file_compression)
    (cb : callbacks) (fd : Z) (sync : fsync) (e : env) :
  m_callbacks f !! compression = Some cb ->
  create_compressor as_string f compression fd sync e = invoke 0 (get0 cb fd sync) e.
Proof.
  intros Hl. unfold create_compressor, bind.
  rewrite (find_callbacks_registered f compression cb e Hl).
  destruct (invoke 0 (get0 cb fd sync) e) as [[r e1] t1]. reflexivity.
Qed.

Lemma create_decompressor_buffer_registered (f : factory)
    (compression : file_compression) (cb : callbacks)
    (buffer : option bytes) (size : N) (e : env) :
  m_callbacks f !! compression = Some cb ->
  create_decompressor_buffer as_string f compression buffer size e
  = invoke 2 (get2 cb buffer size) e.
Proof.
  intros Hl. unfold create_decompressor_buffer, bind.
  rewrite (find_callbacks_registered f compression cb e Hl).
  destruct (invoke 2 (get2 cb buffer size) e) as [[r e1] t1]. reflexivity.
Qed.

Lemma create_decompressor_registered (f : factory) (compression : file_compression)
    (cb : callbacks) (fd : Z) (e : env) :
  m_callbacks f !! compression = Some cb ->
  create_decompressor os as_string f compression fd e
  = create_decompressor_with os cb fd e.
Proof.
  intros Hl. unfold create_decompressor.
  unfold bind at 1.
  rewrite (find_callbacks_registered f compression cb e Hl).
  fold (create_decompressor_with os cb fd).
  destruct (create_decompressor_with os cb fd e) as [[r e1] t1]. reflexivity.
Qed.

(** C2. Registering an identifier that is absent returns [true] and stores
    the triple. After any further registrations, registering the same
    identifier again returns [false] and leaves the registry as it is, and
    the three creation operations call the callbacks of the first
    registration. [register_compression] is a function to a boolean and a
    registry: it has no way to throw. *)
Theorem register_compression_first_wins (f : factory)
    (compression : file_compression) (first second : callbacks)
    (more : list (file_compression * callbacks))
    (fd : Z) (sync : fsync) (buffer : option bytes) (size : N) (e : env) :
  m_callbacks f !! compression = None ->
  let r1 := register_compression compression
              (get0 first) (get1 first) (get2 first) f in
  let f2 := register_all more (snd r1) in
  let r2 := register_compression compression
              (get0 second) (get1 second) (get2 second) f2 in
  fst r1 = true /\
  m_callbacks (snd r1) !! compression = Some first /\
  fst r2 = false /\
  snd r2 = f2 /\
  m_callbacks (snd r2) !! compression = Some first /\
  create_compressor as_string (snd r2) compression fd sync e
  = invoke 0 (get0 first fd sync) e /\
  create_decompressor os as_string (snd r2) compression fd e
  = create_decompressor_with os first fd e /\
  create_decompressor_buffer as_string (snd r2) compression buffer size e
  = invoke 2 (get2 first buffer size) e.
Proof.
  intros Hl r1 f2 r2.
  assert (H1 : r1 = (true, {| m_callbacks := <[compression := first]> (m_callbacks f) |}))
    by now apply register_compression_absent.
  assert (Hfirst : m_callbacks (snd r1) !! compression = Some first).
  { rewrite H1. simpl. apply lookup_insert_eq. }
  assert (Hkept : m_callbacks f2 !! compression = Some first)
    by now apply register_all_keeps.
  assert (H2 : r2 = (false, f2))
    by exact (register_compression_present f2 compression first second Hkept).
  split; [now rewrite H1 |]. split; [exact Hfirst |].
  split; [now rewrite H2 |]. split; [now rewrite H2 |].
  rewrite H2. simpl.
  split; [exact Hkept |].
  split; [now apply create_compressor_registered |].
  split; [now apply create_decompressor_registered |].
  now apply create_decompressor_buffer_registered.
Qed.

(** C8. For a registered identifier, [create_decompressor(compression, fd)]
    calls the descriptor constructor, then asks the platform for the size of
    [fd] and stores the answer in the new instance, which it returns without
    having read anything: [file_size()] of the result is the size the
    platform reported. [create_decompressor(compression, buffer, size)]
    returns what the buffer constructor built and nothing more: a
    [file_size()] of 0 stays 0. *)
Theorem create_decompressor_records_file_size (f : factory)
    (compression : file_compression) (cb : callbacks)
    (fd : Z) (buffer : option bytes) (size : N) (e : env) :
  m_callbacks f !! compression = Some cb ->
  match get1 cb fd e with
  | (returns p0, e1, t1) =>
      match sys_file_size os fd e1 with
      | (returns reported, e2) =>
          exists p,
            create_decompressor os as_string f compression fd e
            = (returns p, e2, ev_callback 1 :: t1 ++ [ev_file_size fd]) /\
            Decompressor.file_size (decompressor p) = reported
      | (throws x, _) =>
          result (create_decompressor os as_string f compression fd e) = throws x
      end
  | (throws x, e1, t1) =>
      create_decompressor os as_string f compression fd e
      = (throws x, e1, ev_callback 1 :: t1)
  end /\
  create_decompressor_buffer as_string f compression buffer size e
  = invoke 2 (get2 cb buffer size) e /\
  forall p0 e1 t1,
    get2 cb buffer size e = (returns p0, e1, t1) ->
    Decompressor.file_size (decompressor p0) = 0 ->
    exists p,
      create_decompressor_buffer as_string f compression buffer size e
      = (returns p, e1, ev_callback 2 :: t1) /\
      Decompressor.file_size (decompressor p) = 0.
Proof.
  intros Hl. split; [| split].
  - rewrite (create_decompressor_registered f compression cb fd e Hl).
    unfold create_decompressor_with, invoke. unfold_monad.
    destruct (get1 cb fd e) as [[[p0 | x] e1] t1]; [| reflexivity].
    destruct (sys_file_size os fd e1) as [[reported | x] e2].
    + eexists. split; [rewrite app_nil_r; reflexivity |].
      rewrite decompressor_with_decompressor. reflexivity.
    + destruct (virtual_destroy p0 e2). reflexivity.
  - now apply create_decompressor_buffer_registered.
  - intros p0 e1 t1 Hcall Hzero.
    rewrite (create_decompressor_buffer_registered f compression cb buffer size e Hl).
    unfold invoke. rewrite Hcall. exists p0. split; [reflexivity | exact Hzero].
Qed.
End FactoryFacts.

(** A program that has only the built-in codec asks for gzip. *)
Lemma create_unregistered_is_unsupported_witness :
  let error :=
    unsupported_file_format_error
      "Support for compression 'gzip' not compiled into this binary" in
  CompressionFactory.create_compressor sample.as_string sample.builtin
    sample.gzip 3 yes tt = (throws error, tt, []) /\
  CompressionFactory.create_decompressor sample.sink sample.as_string
    (DecompressorClass0 := NoDecompressor_class sample.sink) sample.builtin
    sample.gzip 3 tt = (throws error, tt, []) /\
  CompressionFactory.create_decompressor_buffer sample.as_string sample.builtin
    sample.gzip (Some sample.hello) 5 tt = (throws error, tt, []).
Proof.
  apply (create_unregistered_is_unsupported sample.sink sample.as_string
           (DecompressorClass0 := NoDecompressor_class sample.sink)
           sample.builtin sample.gzip 3 yes (Some sample.hello) 5 tt).
  vm_compute. reflexivity.
Defined.

(** The built-in registration, then a gzip codec, then a second
    registration of [none] that is turned down. *)
Lemma register_compression_first_wins_witness :
  let r1 := detail_registration.registered_no_compression (env := unit)
              sample.none CompressionFactory.make in
  let f2 := CompressionFactory.register_all [(sample.gzip, sample.refusing)] (snd r1) in
  let r2 := CompressionFactory.register_compression sample.none
              (CompressionFactory.get0 sample.refusing)
              (CompressionFactory.get1 sample.refusing)
              (CompressionFactory.get2 sample.refusing) f2 in
  fst r1 = true /\ fst r2 = false /\ snd r2 = f2 /\
  CompressionFactory.create_compressor sample.as_string (snd r2) sample.none 3 yes tt
  = (returns (NoCompressor.make 3 yes), tt, [ev_callback 0]).
Proof.
  pose proof (register_compression_first_wins sample.sink sample.as_string
                (DecompressorClass0 := NoDecompressor_class sample.sink)
                CompressionFactory.make sample.none
                sample.no_compression sample.refusing
                [(sample.gzip, sample.refusing)] 3 yes None 0 tt eq_refl)
    as (H1 & _ & H2 & H3 & _ & H4 & _).
  split; [exact H1 |]. split; [exact H2 |]. split; [exact H3 | exact H4].
Defined.

(** The built-in codec over five bytes: by descriptor the size is recorded,
    by buffer it is not. *)
Lemma create_decompressor_records_file_size_witness :
  let f := {| sample.contents := sample.hello; sample.position := 0 |} in
  (exists p,
     result (CompressionFactory.create_decompressor sample.memory_file
               sample.as_string
               (DecompressorClass0 := NoDecompressor_class sample.memory_file)
               sample.builtin sample.none 3 f) = returns p /\
     NoDecompressor.file_size p = 5) /\
  (exists p,
     result (CompressionFactory.create_decompressor_buffer sample.as_string
               sample.builtin sample.none (Some sample.hello) 5 f) = returns p /\
     NoDecompressor.file_size p = 0).
Proof.
  intros f.
  assert (Hl : CompressionFactory.m_callbacks sample.builtin !! sample.none
               = Some (sample.no_compression (env := sample.file)))
    by (vm_compute; reflexivity).
  destruct (create_decompressor_records_file_size sample.memory_file sample.as_string
              (DecompressorClass0 := NoDecompressor_class sample.memory_file)
              sample.builtin sample.none sample.no_compression 3
              (Some sample.hello) 5 f Hl) as (Hfd & _ & Hbuf).
  split.
  - destruct Hfd as (p & Hp & Hsize). exists p. rewrite Hp. split; [reflexivity | exact Hsize].
  - destruct (Hbuf _ _ _ eq_refl eq_refl) as (p & Hp & Hsize).
    exists p. rewrite Hp. split; [reflexivity | exact Hsize].
Defined.

(** * Further properties of the header *)

Section NoCompressorLifetime.
Context {env : Type} (os : platform env).
Import NoCompressor NoCompressorClient NoCompressorTrace.

(** What one [close()] sends to the platform, counted, and the descriptor
    every one of its calls names. *)
Lemma close_release (c : t) (e : env) :
  let r := close os (c, e) in
  releasable (fst (final r)) = 0%nat /\
  base (fst (final r)) = base c /\
  count is_fsync (emitted r)
  = (if Compressor.do_fsync (base c) then releasable c else 0%nat) /\
  (count is_close (emitted r) <= releasable c)%nat /\
  (Compressor.do_fsync (base c) = false ->
   count is_close (emitted r) = releasable c) /\
  Forall (fun ev => event_fd ev = Some (m_fd c)) (emitted r) /\
  (m_fd (fst (final r)) = m_fd c \/ m_fd (fst (final r)) = (-1)%Z).
Proof.
  unfold releasable, close, count. unfold_monad. simpl.
  destruct (Z.leb_spec 0 (m_fd c)); simpl.
  - destruct (Z.eqb_spec (m_fd c) 1); simpl.
    + destruct (Compressor.do_fsync (base c)); repeat split; auto.
    + destruct (Compressor.do_fsync (base c)); simpl;
        repeat (platform_answer; simpl);
        repeat split; auto; try discriminate; repeat constructor.
  - destruct (Z.leb_spec 0 (m_fd c)); [lia |]. simpl.
    destruct (Compressor.do_fsync (base c)); repeat split; auto.
Qed.

Lemma write_release (c : t) (e : env) (data : bytes) :
  let r := write os data (c, e) in
  m_fd (fst (final r)) = m_fd c /\
  base (fst (final r)) = base c /\
  count is_fsync (emitted r) = 0%nat /\
  count is_close (emitted r) = 0%nat /\
  Forall (fun ev => event_fd ev = Some (m_fd c)) (emitted r).
Proof.
  pose proof (write_step os c e data) as (Hev & _ & Hfd & Hbase & _).
  cbn zeta in *. rewrite Hev.
  repeat split; auto; repeat constructor.
Qed.

(** One call of a client: what it adds to the counts, and what is left. *)
Lemma call_release (m : method) (c : t) (e : env) :
  let r := call os m (c, e) in
  base (fst (final r)) = base c /\
  (count is_fsync (emitted r)
   + (if Compressor.do_fsync (base c) then releasable (fst (final r)) else 0)
   = (if Compressor.do_fsync (base c) then releasable c else 0))%nat /\
  (count is_close (emitted r) + releasable (fst (final r)) <= releasable c)%nat /\
  (Compressor.do_fsync (base c) = false ->
   (count is_close (emitted r) + releasable (fst (final r)) = releasable c)%nat) /\
  Forall (fun ev => event_fd ev = Some (m_fd c)) (emitted r) /\
  (m_fd (fst (final r)) = m_fd c \/ m_fd (fst (final r)) = (-1)%Z).
Proof.
  destruct m as [data | |]; cbn [call].
  - pose proof (write_release c e data) as (Hfd & Hbase & Hf & Hc & Hall).
    cbn zeta in *. unfold releasable. rewrite Hfd, Hf, Hc.
    repeat split; auto.
  - pose proof (close_release c e) as (Hz & Hbase & Hf & Hc & Hno & Hall & Hfd).
    cbn zeta in *. rewrite Hz, Hf.
    split; [exact Hbase |].
    split; [destruct (Compressor.do_fsync (base c)); lia |].
    split; [lia |].
    split; [intros Hsync; rewrite (Hno Hsync); lia |].
    split; [exact Hall | exact Hfd].
  - unfold_monad. simpl. unfold count. simpl.
    repeat split; auto.
Qed.

Lemma calls_release (ms : list method) (c : t) (e : env) :
  let r := calls os ms (c, e) in
  result r = returns tt /\
  base (fst (final r)) = base c /\
  (count is_fsync (emitted r)
   + (if Compressor.do_fsync (base c) then releasable (fst (final r)) else 0)
   = (if Compressor.do_fsync (base c) then releasable c else 0))%nat /\
  (count is_close (emitted r) + releasable (fst (final r)) <= releasable c)%nat /\
  (Compressor.do_fsync (base c) = false ->
   (count is_close (emitted r) + releasable (fst (final r)) = releasable c)%nat) /\
  Forall (fun ev => event_fd ev = Some (m_fd c) \/ event_fd ev = Some (-1)%Z)
    (emitted r) /\
  (m_fd (fst (final r)) = m_fd c \/ m_fd (fst (final r)) = (-1)%Z).
Proof.
  revert c e. induction ms as [| m rest IH]; intros c e.
  - cbn. unfold count. simpl.
    repeat split; auto; destruct (Compressor.do_fsync (base c)); lia.
  - pose proof (call_release m c e) as (Hb & Hf & Hc & Hno & Hall & Hfd).
    cbn [calls]. unfold bind, catch_all. unfold result, final, emitted in *.
    cbn zeta in *.
    destruct (call os m (c, e)) as [[r1 [c1 e1]] t1]. cbn [fst snd] in *.
    specialize (IH c1 e1). cbn zeta in IH. unfold result, final, emitted in IH.
    destruct (calls os rest (c1, e1)) as [[r2 [c2 e2]] t2]. cbn [fst snd] in *.
    destruct IH as (IHr & IHb & IHf & IHc & IHno & IHall & IHfd).
    rewrite Hb in IHb, IHf, IHno. rewrite !count_app.
    split; [exact IHr |]. split; [exact IHb |].
    split; [destruct (Compressor.do_fsync (base c)); lia |].
    split; [lia |].
    split; [intros Hsync; specialize (Hno Hsync); specialize (IHno Hsync); lia |].
    split.
    + apply Forall_app. split.
      * eapply Forall_impl; [exact Hall |]. intros ev Hev. left. exact Hev.
      * eapply Forall_impl; [exact IHall |]. intros ev [Hev | Hev]; [| right; exact Hev].
        destruct Hfd as [Hfd | Hfd]; rewrite Hfd in Hev; [left | right]; exact Hev.
    + destruct IHfd as [-> | ->]; [exact Hfd | right; reflexivity].
Qed.

(** X1. Over the whole life of a [NoCompressor] (any calls, then the
    destructor) the platform sees exactly one fsync when the policy is [yes]
    and the descriptor is a real one (not negative, not standard output),
    and none otherwise; with policy [no] it sees exactly one close of such a
    descriptor, also when the client never calls [close()] itself. *)
Theorem NoCompressor_lifetime_releases (fd : Z) (sync : fsync)
    (ms : list method) (e : env) :
  let r := lifetime os fd sync ms e in
  let held := if (0 <=? fd)%Z && negb (fd =? 1)%Z then 1%nat else 0%nat in
  count is_fsync (emitted r) = match sync with yes => held | no => 0%nat end /\
  (count is_close (emitted r) <= held)%nat /\
  (sync = no -> count is_close (emitted r) = held).
Proof.
  intros r held. subst r. unfold lifetime, destroy.
  pose proof (calls_release ms (make fd sync) e) as (Hres & Hb & Hf & Hc & Hno & _).
  cbn zeta in *. unfold bind, catch_all. unfold result, final, emitted in *.
  destruct (calls os ms (make fd sync, e)) as [[r1 [c1 e1]] t1]. cbn [fst snd] in *.
  subst r1.
  pose proof (close_release c1 e1) as (_ & _ & Hf2 & Hc2 & Hno2 & _).
  cbn zeta in *. unfold emitted in *.
  destruct (close os (c1, e1)) as [[r2 s2] t2]. cbn [fst snd] in *.
  rewrite Hb in Hf2, Hno2. rewrite !count_app.
  change (releasable (make fd sync)) with held in *.
  change (Compressor.do_fsync (base (make fd sync)))
    with (match sync with yes => true | no => false end) in *.
  destruct sync.
  - split; [lia |]. split; [lia |]. intros _.
    specialize (Hno eq_refl). specialize (Hno2 eq_refl). lia.
  - split; [lia |]. split; [lia |]. discriminate.
Qed.

(** X2. When the fsync of [close()] throws, [close()] throws the same
    exception without closing the descriptor, and nothing closes it later:
    no call the client makes afterwards and not the destructor. *)
Theorem NoCompressor_failed_fsync_never_closes (c : t) (e e1 : env)
    (x : exception) (ms : list method) :
  (0 <= m_fd c)%Z ->
  m_fd c <> 1%Z ->
  Compressor.m_fsync (base c) = yes ->
  sys_fsync os (m_fd c) e = (throws x, e1) ->
  let r := close os (c, e) in
  let later := (do* calls os ms in destroy os) (final r) in
  r = (throws x, (with_fd (-1) c, e1), [ev_reliable_fsync (m_fd c)]) /\
  count is_close (emitted later) = 0%nat /\
  count is_fsync (emitted later) = 0%nat.
Proof.
  intros Hopen Hout Hsync Hthrow r later.
  assert (Hr : r = (throws x, (with_fd (-1) c, e1), [ev_reliable_fsync (m_fd c)])).
  { subst r. unfold close. unfold_monad. simpl.
    destruct (Z.leb_spec 0 (m_fd c)); [| lia].
    destruct (Z.eqb_spec (m_fd c) 1); [contradiction |].
    unfold Compressor.do_fsync. rewrite Hsync. simpl. rewrite Hthrow. reflexivity. }
  split; [exact Hr |].
  subst later. rewrite Hr. unfold final. cbn [fst snd]. unfold destroy.
  pose proof (calls_release ms (with_fd (-1) c) e1) as (Hres & Hb & Hf & Hc & _).
  cbn zeta in *. unfold bind, catch_all. unfold result, final, emitted in *.
  destruct (calls os ms (with_fd (-1) c, e1)) as [[r1 [c1 e2]] t1].
  cbn [fst snd] in *. subst r1.
  pose proof (close_release c1 e2) as (_ & _ & Hf2 & Hc2 & _).
  cbn zeta in *. unfold emitted in *.
  destruct (close os (c1, e2)) as [[r2 s2] t2]. cbn [fst snd] in *.
  rewrite Hb in Hf2. rewrite !count_app.
  change (releasable (with_fd (-1) c)) with 0%nat in *.
  destruct (Compressor.do_fsync (base (with_fd (-1) c))); lia.
Qed.

(** X3. Every platform call a [NoCompressor] makes in its whole life names
    the descriptor it was constructed with or -1; once [close()] has run on
    an instance that held a descriptor, every later platform call names -1:
    the closed descriptor is never handed to the platform again. *)
Theorem NoCompressor_names_only_its_descriptor (fd : Z) (sync : fsync)
    (ms : list method) (e : env) :
  Forall (fun ev => event_fd ev = Some fd \/ event_fd ev = Some (-1)%Z)
    (emitted (lifetime os fd sync ms e)) /\
  forall c e0,
    (0 <= m_fd c)%Z ->
    Forall (fun ev => event_fd ev = Some (-1)%Z)
      (emitted ((do* calls os ms in destroy os) (final (close os (c, e0))))).
Proof.
  assert (Hrun : forall c e0,
    Forall (fun ev => event_fd ev = Some (m_fd c) \/ event_fd ev = Some (-1)%Z)
      (emitted ((do* calls os ms in destroy os) (c, e0)))).
  { intros c e0. unfold destroy.
    pose proof (calls_release ms c e0) as (Hres & _ & _ & _ & _ & Hall & Hfd).
    cbn zeta in *. unfold bind, catch_all. unfold result, final, emitted in *.
    destruct (calls os ms (c, e0)) as [[r1 [c1 e1]] t1]. cbn [fst snd] in *.
    subst r1.
    pose proof (close_release c1 e1) as (_ & _ & _ & _ & _ & Hall2 & _).
    cbn zeta in *. unfold emitted in *.
    destruct (close os (c1, e1)) as [[r2 s2] t2]. cbn [fst snd] in *.
    apply Forall_app. split; [exact Hall |].
    eapply Forall_impl; [exact Hall2 |]. intros ev Hev.
    destruct Hfd as [Hfd | Hfd]; rewrite Hfd in Hev; [left | right]; exact Hev. }
  split; [exact (Hrun (make fd sync) e) |].
  intros c e0 Hopen.
  assert (Hclosed : m_fd (fst (final (close os (c, e0)))) = (-1)%Z).
  { unfold close. unfold_monad. simpl.
    destruct (Z.leb_spec 0 (m_fd c)); [| lia].
    destruct (m_fd c =? 1)%Z; [reflexivity |].
    destruct (Compressor.do_fsync (base c)); simpl;
      repeat (platform_answer; simpl); reflexivity. }
  destruct (final (close os (c, e0))) as [c1 e1]. cbn [fst] in Hclosed.
  specialize (Hrun c1 e1). rewrite Hclosed in Hrun.
  eapply Forall_impl; [exact Hrun |]. intros ev [Hev | Hev]; exact Hev.
Qed.

Lemma attempts_from (chunks : list bytes) (c : t) (e : env) :
  m_file_size c < size_t_modulus ->
  let a := attempts os chunks (c, e) in
  snd a = map (ev_reliable_write (m_fd c)) chunks /\
  length (fst (fst a)) = length chunks /\
  m_fd (fst (snd (fst a))) = m_fd c /\
  m_file_size (fst (snd (fst a)))
  = (m_file_size c + total_size (accepted chunks (fst (fst a)))) mod size_t_modulus.
Proof.
  revert c e. induction chunks as [| chunk rest IH]; intros c e Hc.
  - cbn. repeat split. rewrite N.add_0_r. symmetry. now apply N.mod_small.
  - cbn [attempts].
    pose proof (write_step os c e chunk) as (Hev & _ & Hfd & _ & Hw).
    cbn zeta in *. unfold result, final, emitted in *.
    destruct (write os chunk (c, e)) as [[r1 [c1 e1]] t1]. cbn [fst snd] in *.
    assert (Hc1 : m_file_size c1 < size_t_modulus).
    { destruct (fst (sys_write os (m_fd c) chunk e)); destruct Hw as [_ ->];
        [apply N.mod_lt; discriminate | exact Hc]. }
    specialize (IH c1 e1 Hc1). cbn zeta in IH.
    destruct (attempts os rest (c1, e1)) as [[rs [c2 e2]] t2]. cbn [fst snd] in *.
    destruct IH as (IH1 & IH2 & IH3 & IH4).
    rewrite Hev, IH1, Hfd. split; [reflexivity |].
    split; [cbn; now rewrite IH2 |]. split; [congruence |].
    rewrite IH4.
    destruct (fst (sys_write os (m_fd c) chunk e)); destruct Hw as [-> ->].
    + cbn [accepted]. rewrite total_size_cons. unfold size_t_add.
      rewrite N.Div0.add_mod_idemp_l. f_equal. lia.
    + cbn [accepted]. reflexivity.
Qed.

(** X4. When some writes fail and the client goes on, every chunk is still
    handed to the platform exactly once, in order, and [file_size()] is the
    number of bytes of the chunks whose [write] returned (modulo [2^64]): a
    write that throws adds nothing to the counter. *)
Theorem NoCompressor_counts_accepted_bytes (fd : Z) (sync : fsync)
    (chunks : list bytes) (e : env) :
  let a := attempts os chunks (make fd sync, e) in
  let outcomes := fst (fst a) in
  snd a = map (ev_reliable_write fd) chunks /\
  length outcomes = length chunks /\
  file_size (fst (snd (fst a)))
  = total_size (accepted chunks outcomes) mod size_t_modulus.
Proof.
  intros a outcomes.
  assert (H0 : m_file_size (make fd sync) < size_t_modulus) by reflexivity.
  destruct (attempts_from chunks (make fd sync) e H0) as (H1 & H2 & _ & H4).
  split; [exact H1 |]. split; [exact H2 | exact H4].
Qed.
End NoCompressorLifetime.

Section NoDecompressorLifetime.
Context {env : Type} (os : platform env).
Import NoDecompressor NoDecompressorClient.

(** What [read()] leaves alone, and what its platform calls are. *)
Lemma read_frame (d : t) (e : env) :
  let r := read os (d, e) in
  m_fd (fst (final r)) = m_fd d /\
  m_buffer (fst (final r)) = m_buffer d /\
  file_size (fst (final r)) = file_size d /\
  want_buffered_pages_removed (fst (final r)) = want_buffered_pages_removed d /\
  Forall (fun ev => event_fd ev = Some (m_fd d) /\ is_close ev = false) (emitted r) /\
  (forall memory, m_buffer d = Some memory -> emitted r = [] /\ snd (final r) = e).
Proof.
  cbn zeta. destruct (m_buffer d) as [memory |] eqn:Hb.
  - destruct (N.eq_dec (m_buffer_size d) 0) as [Hz | Hnz].
    + rewrite (read_buffer_again os d e memory Hb Hz).
      unfold final, emitted. cbn. repeat split; auto.
    + rewrite (read_buffer_first os d e memory Hb Hnz).
      unfold final, emitted. cbn. repeat split; auto.
  - pose proof (read_descriptor os d e Hb) as (Hev & _ & Hres).
    cbn zeta in *. rewrite Hev.
    assert (Hst : m_fd (fst (final (read os (d, e)))) = m_fd d /\
                  m_buffer (fst (final (read os (d, e)))) = None /\
                  file_size (fst (final (read os (d, e)))) = file_size d /\
                  want_buffered_pages_removed (fst (final (read os (d, e))))
                  = want_buffered_pages_removed d).
    { destruct (fst (sys_read os (m_fd d) Decompressor.input_buffer_size _));
        destruct Hres as [_ ->]; cbn; auto. }
    destruct Hst as (H1 & H2 & H3 & H4).
    split; [exact H1 |]. split; [exact H2 |]. split; [exact H3 |].
    split; [exact H4 |]. split; [| discriminate].
    destruct (want_buffered_pages_removed d); repeat constructor.
Qed.

(** What [close()] does, case by case. *)
Lemma close_cases (d : t) (e : env) :
  let r := close os (d, e) in
  ((m_fd d < 0)%Z -> r = (returns tt, (d, e), [])) /\
  ((0 <= m_fd d)%Z ->
   let e0 := if want_buffered_pages_removed d
             then sys_remove_buffered_pages os (m_fd d) None e
             else e in
   r = (fst (sys_close os (m_fd d) e0),
        (with_fd (-1) d, snd (sys_close os (m_fd d) e0)),
        (if want_buffered_pages_removed d
         then [ev_remove_buffered_pages (m_fd d) None] else [])
        ++ [ev_reliable_close (m_fd d)])).
Proof.
  cbn zeta. unfold close. unfold_monad. simpl.
  destruct (Z.leb_spec 0 (m_fd d)); (split; [intros; try lia | intros; try lia]).
  - destruct (want_buffered_pages_removed d); simpl;
      platform_answer; reflexivity.
  - reflexivity.
Qed.

(** X5. [NoDecompressor::close()]: without a descriptor (a buffer-backed or
    an already closed instance) it does nothing; with one it gives the
    eviction hint for the whole file when the flag is set, then closes the
    descriptor (whatever its number: standard input and output are closed
    like any other), returns or throws what the platform's close answered,
    and has forgotten the descriptor in either case, so that a second
    [close()] does nothing. It changes none of the counters. *)
Theorem NoDecompressor_close_contract (d : t) (e : env) :
  let r := close os (d, e) in
  ((m_fd d < 0)%Z -> r = (returns tt, (d, e), [])) /\
  ((0 <= m_fd d)%Z ->
   emitted r
   = (if want_buffered_pages_removed d
      then [ev_remove_buffered_pages (m_fd d) None] else [])
     ++ [ev_reliable_close (m_fd d)] /\
   result r
   = fst (sys_close os (m_fd d)
            (if want_buffered_pages_removed d
             then sys_remove_buffered_pages os (m_fd d) None e else e)) /\
   m_fd (fst (final r)) = (-1)%Z) /\
  close os (final r) = (returns tt, final r, []) /\
  file_size (fst (final r)) = file_size d /\
  offset (fst (final r)) = offset d /\
  want_buffered_pages_removed (fst (final r)) = want_buffered_pages_removed d.
Proof.
  intros r. pose proof (close_cases d e) as [Hclosed Hopen]. fold r in Hclosed, Hopen.
  split; [exact Hclosed |].
  destruct (Z.lt_ge_cases (m_fd d) 0) as [Hlt | Hge].
  - rewrite (Hclosed Hlt). split; [intros; lia |]. unfold final. cbn [fst snd].
    split; [apply close_cases; exact Hlt |]. repeat split.
  - specialize (Hopen Hge). cbn zeta in Hopen. rewrite Hopen.
    unfold result, final, emitted. cbn [fst snd].
    split; [intros _; repeat split |].
    split; [| repeat split].
    apply close_cases. cbn. lia.
Qed.

(** One call of a client. *)
Lemma call_frame (m : method) (d : t) (e : env) :
  let r := call os m (d, e) in
  (count is_close (emitted r) + budget (fst (final r)) = budget d)%nat /\
  Forall (fun ev => event_fd ev = Some (m_fd d)) (emitted r) /\
  (m_fd (fst (final r)) = m_fd d \/ m_fd (fst (final r)) = (-1)%Z) /\
  m_buffer (fst (final r)) = m_buffer d /\
  (forall memory, m_buffer d = Some memory -> (m_fd d < 0)%Z ->
     emitted r = [] /\ snd (final r) = e).
Proof.
  destruct m; cbn [call].
  - pose proof (read_frame d e) as (Hfd & Hb & _ & _ & Hall & Hbuf).
    cbn zeta in *. unfold bind, ret. unfold final, emitted in *.
    destruct (read os (d, e)) as [[[chunk | x] [d1 e1]] t1]; cbn [fst snd] in *;
      rewrite ?app_nil_r; unfold budget; rewrite Hfd.
    all: assert (Hcount : count is_close t1 = 0%nat)
      by (clear - Hall; unfold count; induction Hall as [| ev l [_ Hev] _ IH];
          [reflexivity | cbn; rewrite Hev; exact IH]).
    all: rewrite Hcount.
    all: split; [reflexivity |].
    all: split; [eapply Forall_impl; [exact Hall |]; intros ev [Hev _]; exact Hev |].
    all: split; [left; reflexivity |].
    all: split; [exact Hb |].
    all: intros memory Hm _; exact (Hbuf memory Hm).
  - pose proof (close_cases d e) as [Hclosed Hopen]. cbn zeta in *.
    destruct (Z.lt_ge_cases (m_fd d) 0) as [Hlt | Hge].
    + rewrite (Hclosed Hlt). unfold final, emitted, count. cbn.
      repeat split; auto.
    + rewrite (Hopen Hge). unfold final, emitted, budget. cbn [fst snd].
      rewrite count_app. unfold count. cbn.
      destruct (Z.leb_spec 0 (m_fd d)); [| lia].
      split; [destruct (want_buffered_pages_removed d); reflexivity |].
      split; [destruct (want_buffered_pages_removed d); repeat constructor |].
      split; [right; reflexivity |]. split; [reflexivity |].
      intros memory _ Hlt. lia.
  - unfold_monad. cbn. unfold count. cbn. repeat split; auto.
  - unfold_monad. cbn. unfold count. cbn. repeat split; auto.
  - unfold_monad. cbn. unfold count. cbn. repeat split; auto.
Qed.

Lemma calls_frame (ms : list method) (d : t) (e : env) :
  let r := calls os ms (d, e) in
  result r = returns tt /\
  (count is_close (emitted r) + budget (fst (final r)) = budget d)%nat /\
  Forall (fun ev => event_fd ev = Some (m_fd d) \/ event_fd ev = Some (-1)%Z)
    (emitted r) /\
  (m_fd (fst (final r)) = m_fd d \/ m_fd (fst (final r)) = (-1)%Z) /\
  m_buffer (fst (final r)) = m_buffer d /\
  (forall memory, m_buffer d = Some memory -> (m_fd d < 0)%Z ->
     emitted r = [] /\ snd (final r) = e).
Proof.
  revert d e. induction ms as [| m rest IH]; intros d e.
  - cbn. unfold count. cbn. repeat split; auto.
  - pose proof (call_frame m d e) as (Hc & Hall & Hfd & Hb & Hbuf).
    cbn [calls]. unfold bind, catch_all. unfold result, final, emitted in *.
    cbn zeta in *.
    destruct (call os m (d, e)) as [[r1 [d1 e1]] t1]. cbn [fst snd] in *.
    specialize (IH d1 e1). cbn zeta in IH. unfold result, final, emitted in IH.
    destruct (calls os rest (d1, e1)) as [[r2 [d2 e2]] t2]. cbn [fst snd] in *.
    destruct IH as (IHr & IHc & IHall & IHfd & IHb & IHbuf).
    rewrite count_app.
    split; [exact IHr |]. split; [lia |]. split; [| split; [| split]].
    + apply Forall_app. split.
      * eapply Forall_impl; [exact Hall |]. intros ev Hev. left. exact Hev.
      * eapply Forall_impl; [exact IHall |]. intros ev [Hev | Hev]; [| right; exact Hev].
        destruct Hfd as [Hfd | Hfd]; rewrite Hfd in Hev; [left | right]; exact Hev.
    + destruct IHfd as [-> | ->]; [exact Hfd | right; reflexivity].
    + congruence.
    + intros memory Hm Hlt. destruct (Hbuf memory Hm Hlt) as [-> ->].
      apply (IHbuf memory); [congruence |].
      destruct Hfd as [-> | ->]; lia.
Qed.

(** X6. Over the whole life of a [NoDecompressor] (any calls of [read()],
    [close()] and the setters, each possibly throwing, then the destructor)
    the destructor does not throw and the platform sees exactly one close
    when the instance was given a descriptor and none when it was not: the
    descriptor is neither leaked nor closed twice. Every platform call names
    that descriptor or -1, and after a [close()] only -1. *)
Theorem NoDecompressor_lifetime_closes_once (d : t) (ms : list method) (e : env) :
  let r := lifetime os d ms e in
  result r = returns tt /\
  count is_close (emitted r) = (if (0 <=? m_fd d)%Z then 1%nat else 0%nat) /\
  Forall (fun ev => event_fd ev = Some (m_fd d) \/ event_fd ev = Some (-1)%Z)
    (emitted r) /\
  ((0 <= m_fd d)%Z ->
   Forall (fun ev => event_fd ev = Some (-1)%Z)
     (emitted (lifetime os (fst (final (close os (d, e)))) ms
                 (snd (final (close os (d, e))))))).
Proof.
  assert (Hrun : forall d0 e0,
    let r := lifetime os d0 ms e0 in
    result r = returns tt /\
    count is_close (emitted r) = budget d0 /\
    Forall (fun ev => event_fd ev = Some (m_fd d0) \/ event_fd ev = Some (-1)%Z)
      (emitted r)).
  { intros d0 e0. cbn zeta. unfold lifetime, destroy.
    pose proof (calls_frame ms d0 e0) as (Hres & Hc & Hall & Hfd & _).
    cbn zeta in *. unfold bind, catch_all. unfold result, final, emitted in *.
    destruct (calls os ms (d0, e0)) as [[r1 [d1 e1]] t1]. cbn [fst snd] in *.
    subst r1.
    pose proof (call_frame call_close d1 e1) as (Hc2 & Hall2 & _).
    cbn [call] in Hc2, Hall2. cbn zeta in *. unfold final, emitted in *.
    assert (Hz : budget (fst (fst (close os (d1, e1))).2) = 0%nat).
    { pose proof (close_cases d1 e1) as [Hclosed Hopen]. cbn zeta in *.
      unfold budget.
      destruct (Z.lt_ge_cases (m_fd d1) 0) as [Hlt | Hge].
      - rewrite (Hclosed Hlt). cbn. destruct (Z.leb_spec 0 (m_fd d1)); [lia | reflexivity].
      - rewrite (Hopen Hge). reflexivity. }
    destruct (close os (d1, e1)) as [[r2 s2] t2]. cbn [fst snd] in *.
    rewrite count_app. split; [reflexivity |]. split; [lia |].
    apply Forall_app. split; [exact Hall |].
    eapply Forall_impl; [exact Hall2 |]. intros ev Hev.
    destruct Hfd as [Hfd | Hfd]; rewrite Hfd in Hev; [left | right]; exact Hev. }
  intros r. destruct (Hrun d e) as (H1 & H2 & H3).
  split; [exact H1 |]. split; [exact H2 |]. split; [exact H3 |].
  intros Hopen.
  pose proof (close_cases d e) as [_ Hcl]. cbn zeta in Hcl. rewrite (Hcl Hopen).
  unfold final. cbn [fst snd].
  match goal with |- context [lifetime os ?d0 ms ?e0] =>
    destruct (Hrun d0 e0) as (_ & _ & H4) end.
  eapply Forall_impl; [exact H4 |]. intros ev [Hev | Hev]; exact Hev.
Qed.

(** X7. A [NoDecompressor] over a buffer (a pointer that is not null) makes
    no platform call in its whole life, whatever the client calls and
    whatever the eviction flag says: reading, closing and destroying it
    leave the platform as it is. *)
Theorem NoDecompressor_buffer_never_calls_platform (memory : bytes) (size : N)
    (ms : list method) (e : env) :
  let r := lifetime os (make_buffer (Some memory) size) ms e in
  emitted r = [] /\ snd (final r) = e /\ result r = returns tt.
Proof.
  cbn zeta. unfold lifetime, destroy.
  pose proof (calls_frame ms (make_buffer (Some memory) size) e)
    as (Hres & _ & _ & Hfd & _ & Hbuf).
  cbn zeta in *.
  assert (Hneg : (m_fd (make_buffer (Some memory) size) < 0)%Z) by (cbn; lia).
  destruct (Hbuf memory eq_refl Hneg) as [Hev Henv].
  unfold bind, catch_all. unfold result, final, emitted in *.
  destruct (calls os ms (make_buffer (Some memory) size, e)) as [[r1 [d1 e1]] t1].
  cbn [fst snd] in *. subst r1 t1 e1.
  assert (Hd1 : (m_fd d1 < 0)%Z) by (destruct Hfd as [-> | ->]; cbn; lia).
  rewrite (proj1 (close_cases d1 e) Hd1). cbn. repeat split.
Qed.

(** X8. Reading never closes anything and never touches [file_size()] or
    the eviction flag: after any number of [read()] calls, whether they
    returned or threw, both are as before, the instance still holds its
    descriptor, and no close has reached the platform. *)
Theorem NoDecompressor_reads_keep_file_size (d : t) (k : nat) (e : env) :
  let r := calls os (replicate k call_read) (d, e) in
  file_size (fst (final r)) = file_size d /\
  want_buffered_pages_removed (fst (final r)) = want_buffered_pages_removed d /\
  m_fd (fst (final r)) = m_fd d /\
  count is_close (emitted r) = 0%nat.
Proof.
  revert d e. induction k as [| k IH]; intros d e.
  - cbn. repeat split.
  - cbn [replicate calls call].
    pose proof (read_frame d e) as (Hfd & _ & Hfs & Hw & Hall & _).
    cbn zeta in *. unfold bind, catch_all, ret. unfold final, emitted in *.
    assert (Hcount : count is_close (read os (d, e)).2 = 0%nat).
    { clear - Hall. unfold count. induction Hall as [| ev l [_ Hev] _ IHl];
        [reflexivity | cbn; rewrite Hev; exact IHl]. }
    destruct (read os (d, e)) as [[[chunk | x] [d1 e1]] t1]; cbn [fst snd] in *.
    all: specialize (IH d1 e1); cbn zeta in IH; unfold final, emitted in IH.
    all: destruct (calls os (replicate k call_read) (d1, e1)) as [[r2 [d2 e2]] t2].
    all: cbn [fst snd] in *; rewrite ?app_nil_r, count_app.
    all: destruct IH as (I1 & I2 & I3 & I4).
    all: repeat split; try congruence; lia.
Qed.

(** X9. A [NoDecompressor] constructed over a null buffer pointer is not an
    empty buffer: whatever size it was given, [read()] takes the descriptor
    branch and asks the platform to read descriptor -1, returning or
    throwing what the platform answers. *)
Theorem NoDecompressor_null_buffer_reads_descriptor (size : N) (e : env) :
  let r := read os (make_buffer None size, e) in
  emitted r = [ev_reliable_read (-1) (1024 * 1024)] /\
  match sys_read os (-1) (1024 * 1024) e with
  | (returns delivered, e1) => result r = returns delivered /\ snd (final r) = e1
  | (throws x, e1) => result r = throws x /\ snd (final r) = e1
  end.
Proof.
  intros r.
  pose proof (read_descriptor os (make_buffer None size) e eq_refl)
    as (Hev & Henv & Hres).
  fold r in Hev, Henv, Hres. cbn in Hev, Henv, Hres.
  change Decompressor.input_buffer_size with (1024 * 1024) in Hev, Henv, Hres.
  split; [exact Hev |].
  destruct (sys_read os (-1) (1024 * 1024) e) as [[delivered | x] e1];
    cbn in Henv, Hres; destruct Hres as [Hr _]; split; assumption.
Qed.

(** X15. [offset()] after a [read()] comes from the instance's own counter,
    not from the value a client stored with [set_offset]: a [read()] that
    returns a chunk sets [offset()] to the bytes the instance has handed out
    so far (its own count plus the chunk), overwriting what [set_offset]
    stored; a [read()] that throws leaves the stored value. What is read
    does not depend on the stored value. *)
Theorem NoDecompressor_offset_follows_own_counter (d : t) (v : N) (e : env) :
  let r := read os (set_offset v d, e) in
  result r = result (read os (d, e)) /\
  match result r with
  | returns chunk =>
      offset (fst (final r)) = size_t_add (m_offset d) (string_size chunk)
  | throws _ => offset (fst (final r)) = v
  end.
Proof.
  cbn zeta. destruct (m_buffer d) as [memory |] eqn:Hb.
  - destruct (N.eq_dec (m_buffer_size d) 0) as [Hz | Hnz].
    + rewrite (read_buffer_again os (set_offset v d) e memory Hb Hz).
      rewrite (read_buffer_again os d e memory Hb Hz).
      split; reflexivity.
    + rewrite (read_buffer_first os (set_offset v d) e memory Hb Hnz).
      rewrite (read_buffer_first os d e memory Hb Hnz).
      split; reflexivity.
  - pose proof (read_descriptor os (set_offset v d) e Hb) as (_ & _ & H1).
    pose proof (read_descriptor os d e Hb) as (_ & _ & H2).
    cbn zeta in H1, H2.
    change (m_fd (set_offset v d)) with (m_fd d) in H1.
    change (m_offset (set_offset v d)) with (m_offset d) in H1.
    change (want_buffered_pages_removed (set_offset v d))
      with (want_buffered_pages_removed d) in H1.
    destruct (fst (sys_read os (m_fd d) Decompressor.input_buffer_size _))
      as [delivered | x]; destruct H1 as [R1 D1]; destruct H2 as [R2 _];
      rewrite R1, R2, D1; split; reflexivity.
Qed.
End NoDecompressorLifetime.

(** X10. A [DummyDecompressor] is inert: whatever the client calls, in
    whatever order and however often, every [read()] returns the empty
    chunk, nothing throws, no platform call is made and neither the object
    nor the platform changes; [is_real()] is false. *)
Theorem DummyDecompressor_is_inert {env : Type} (d : DummyDecompressor.t)
    (ms : list DummyDecompressorClient.method) (e : env) :
  DummyDecompressorClient.calls ms (d, e)
  = (replicate (length ms) (returns []), (d, e), []) /\
  DummyDecompressor.is_real d = false.
Proof.
  split; [| reflexivity].
  induction ms as [| m rest IH]; [reflexivity |].
  cbn [DummyDecompressorClient.calls length replicate].
  destruct m; cbn; rewrite IH; reflexivity.
Qed.

Section FactoryFrame.
Context {env : Type} (os : platform env).
Context {file_compression : Type} `{Countable file_compression}.
Context (as_string : file_compression -> string).
Context {C D : Type} `{!DecompressorClass env D}.
Import CompressionFactory.

(** X11. Registration only ever adds: after [register_compression] the
    registered identifiers are the old ones and the new one, every
    identifier that had a triple keeps it, and for every other identifier
    the three creation operations behave as before. *)
Theorem register_compression_only_adds
    (f : CompressionFactory.t (env := env) (file_compression := file_compression)
           (C := C) (D := D))
    (compression other : file_compression)
    (cb : CompressionFactory.callbacks_type (env := env) (C := C) (D := D))
    (fd : Z) (sync : fsync) (buffer : option bytes) (size : N) (e : env) :
  let f1 := snd (register_compression compression (get0 cb) (get1 cb) (get2 cb) f) in
  dom (m_callbacks f1) = {[compression]} ∪ dom (m_callbacks f) /\
  (forall old, m_callbacks f !! other = Some old ->
               m_callbacks f1 !! other = Some old) /\
  (other <> compression ->
   m_callbacks f1 !! other = m_callbacks f !! other /\
   create_compressor as_string f1 other fd sync e
   = create_compressor as_string f other fd sync e /\
   create_decompressor os as_string f1 other fd e
   = create_decompressor os as_string f other fd e /\
   create_decompressor_buffer as_string f1 other buffer size e
   = create_decompressor_buffer as_string f other buffer size e).
Proof.
  intros f1.
  assert (Hcases :
    (exists taken, m_callbacks f !! compression = Some taken /\ f1 = f) \/
    (m_callbacks f !! compression = None /\
     m_callbacks f1 = <[compression := cb]> (m_callbacks f))).
  { destruct (m_callbacks f !! compression) as [taken |] eqn:Hl.
    - left. exists taken. split; [reflexivity |]. subst f1.
      now rewrite (register_compression_present f compression taken cb Hl).
    - right. split; [reflexivity |]. subst f1.
      now rewrite (register_compression_absent f compression cb Hl). }
  assert (Hother : other <> compression ->
                   m_callbacks f1 !! other = m_callbacks f !! other).
  { intros Hne. destruct Hcases as [(taken & _ & ->) | [_ ->]]; [reflexivity |].
    apply lookup_insert_ne. congruence. }
  split; [| split].
  - destruct Hcases as [(taken & Hl & ->) | [_ ->]].
    + symmetry. apply subseteq_union_1_L, singleton_subseteq_l, elem_of_dom.
      eauto.
    + apply dom_insert_L.
  - intros old Hold. subst f1. now apply register_compression_keeps.
  - intros Hne. specialize (Hother Hne). split; [exact Hother |].
    unfold create_compressor, create_decompressor, create_decompressor_buffer,
      find_callbacks.
    rewrite Hother. repeat split.
Qed.

(** X16. The order in which two different identifiers are registered does
    not matter: both orders give the same registry and the same two
    results. *)
Theorem register_compression_commutes
    (f : CompressionFactory.t (env := env) (file_compression := file_compression)
           (C := C) (D := D))
    (a b : file_compression)
    (ca cb : CompressionFactory.callbacks_type (env := env) (C := C) (D := D)) :
  a <> b ->
  let ra := register_compression a (get0 ca) (get1 ca) (get2 ca) f in
  let rab := register_compression b (get0 cb) (get1 cb) (get2 cb) (snd ra) in
  let rb := register_compression b (get0 cb) (get1 cb) (get2 cb) f in
  let rba := register_compression a (get0 ca) (get1 ca) (get2 ca) (snd rb) in
  snd rab = snd rba /\ fst ra = fst rba /\ fst rb = fst rab.
Proof.
  intros Hne ra rab rb rba. subst ra rab rb rba.
  destruct (m_callbacks f !! a) as [ta |] eqn:Ha;
    destruct (m_callbacks f !! b) as [tb |] eqn:Hb.
  - rewrite (register_compression_present f a ta ca Ha).
    rewrite (register_compression_present f b tb cb Hb). cbn [fst snd].
    rewrite (register_compression_present f a ta ca Ha).
    rewrite (register_compression_present f b tb cb Hb). repeat split.
  - rewrite (register_compression_present f a ta ca Ha).
    rewrite (register_compression_absent f b cb Hb). cbn [fst snd].
    rewrite (register_compression_absent f b cb Hb).
    erewrite register_compression_present
      by (cbn [m_callbacks]; rewrite lookup_insert_ne by congruence; exact Ha).
    repeat split.
  - rewrite (register_compression_absent f a ca Ha).
    rewrite (register_compression_present f b tb cb Hb). cbn [fst snd].
    rewrite (register_compression_absent f a ca Ha).
    erewrite register_compression_present
      by (cbn [m_callbacks]; rewrite lookup_insert_ne by congruence; exact Hb).
    repeat split.
  - rewrite (register_compression_absent f a ca Ha).
    rewrite (register_compression_absent f b cb Hb). cbn [fst snd].
    rewrite register_compression_absent
      by (cbn [m_callbacks]; rewrite lookup_insert_ne by congruence; exact Hb).
    rewrite register_compression_absent
      by (cbn [m_callbacks]; rewrite lookup_insert_ne by congruence; exact Ha).
    cbn [fst snd m_callbacks]. split; [| split; reflexivity].
    f_equal. apply insert_insert_ne. congruence.
Qed.
End FactoryFrame.

Section BuiltinCodec.
Context {env : Type} (os : platform env).
Context {file_compression : Type} `{Countable file_compression}.
Context (as_string : file_compression -> string) (none : file_compression).
Import CompressionFactory.

Lemma registered_no_compression_lookup
    (f : CompressionFactory.t (env := env) (file_compression := file_compression)
           (C := NoCompressor.t) (D := NoDecompressor.t)) :
  m_callbacks f !! none = None ->
  detail_registration.registered_no_compression none f
  = (true,
     {| m_callbacks :=
          <[none := make_tuple
                      (fun fd sync => ret (NoCompressor.make fd sync))
                      (fun fd => ret (NoDecompressor.make_fd fd))
                      (fun buffer size => ret (NoDecompressor.make_buffer buffer size))]>
            (m_callbacks f) |}).
Proof.
  intros Hl. unfold detail_registration.registered_no_compression,
    register_compression, map_insert.
  cbn [fst snd]. rewrite Hl. reflexivity.
Qed.

(** X12. The registration this header performs for [none] makes the no-op
    codec available: on a registry that has no entry for [none] it returns
    [true]; afterwards [create_compressor(none, fd, sync)] returns a new
    [NoCompressor] on [fd] with that policy and
    [create_decompressor(none, buffer, size)] a new [NoDecompressor] over the
    buffer, each by one callback call and without any platform call, and
    [create_decompressor(none, fd)], when the size query returns, a new
    [NoDecompressor] on [fd] that holds the reported size. Performing the
    registration again returns [false] and changes nothing. *)
Theorem registered_no_compression_creates_noop_codec
    (f : CompressionFactory.t (env := env) (file_compression := file_compression)
           (C := NoCompressor.t) (D := NoDecompressor.t))
    (fd : Z) (sync : fsync) (buffer : option bytes) (size : N) (e : env) :
  m_callbacks f !! none = None ->
  let r := detail_registration.registered_no_compression none f in
  fst r = true /\
  create_compressor as_string (snd r) none fd sync e
  = (returns (NoCompressor.make fd sync), e, [ev_callback 0]) /\
  create_decompressor_buffer as_string (snd r) none buffer size e
  = (returns (NoDecompressor.make_buffer buffer size), e, [ev_callback 2]) /\
  (forall reported e1,
     sys_file_size os fd e = (returns reported, e1) ->
     create_decompressor os as_string
       (DecompressorClass0 := NoDecompressor_class os) (snd r) none fd e
     = (returns (NoDecompressor.set_file_size reported (NoDecompressor.make_fd fd)),
        e1, [ev_callback 1; ev_file_size fd])) /\
  detail_registration.registered_no_compression none (snd r) = (false, snd r).
Proof.
  intros Hl r. subst r. rewrite (registered_no_compression_lookup f Hl).
  cbn [fst snd].
  split; [reflexivity |].
  unfold create_compressor, create_decompressor, create_decompressor_buffer,
    find_callbacks. cbn [m_callbacks]. rewrite lookup_insert_eq.
  split; [reflexivity |]. split; [reflexivity |]. split.
  - intros reported e1 Hsize. unfold invoke. unfold_monad. cbn.
    rewrite Hsize. reflexivity.
  - unfold detail_registration.registered_no_compression, register_compression,
      map_insert. cbn [fst snd m_callbacks]. rewrite lookup_insert_eq. reflexivity.
Qed.

(** X13. When the size query of [create_decompressor(none, fd)] throws, the
    [NoDecompressor] that was just constructed is destroyed on the way out,
    which closes [fd]: the caller gets the platform's exception and the
    descriptor has been closed (an exception of that close is swallowed). *)
Theorem create_decompressor_closes_descriptor_on_failure
    (f : CompressionFactory.t (env := env) (file_compression := file_compression)
           (C := NoCompressor.t) (D := NoDecompressor.t))
    (fd : Z) (e e1 : env) (x : exception) :
  m_callbacks f !! none = None ->
  (0 <= fd)%Z ->
  sys_file_size os fd e = (throws x, e1) ->
  create_decompressor os as_string
    (DecompressorClass0 := NoDecompressor_class os)
    (snd (detail_registration.registered_no_compression none f)) none fd e
  = (throws x, snd (sys_close os fd e1),
     [ev_callback 1; ev_file_size fd; ev_reliable_close fd]).
Proof.
  intros Hl Hfd Hsize. rewrite (registered_no_compression_lookup f Hl).
  cbn [fst snd].
  unfold create_decompressor, find_callbacks. cbn [m_callbacks].
  rewrite lookup_insert_eq.
  unfold invoke. unfold_monad. cbn [get1 fst snd]. cbn.
  rewrite Hsize. cbn.
  unfold NoDecompressor.destroy, NoDecompressor.close. unfold_monad. simpl.
  destruct (Z.leb_spec 0 fd); [| lia]. simpl.
  destruct (sys_close os fd e1) as [[u | y] e2]; reflexivity.
Qed.
End BuiltinCodec.

Section CommandLine.
Import osmium_area_test.

Lemma read_options_shape (answers : list answer) :
  read_options answers
  = (flat_map handler_of (accepted_prefix answers)
     ++ written (stopper answers)
     ++ (if (value (stopper answers) =? char_h)%Z then print_help else []),
     if (value (stopper answers) =? -1)%Z then None
     else if (value (stopper answers) =? char_h)%Z then Some 0%Z
     else Some 1%Z).
Proof.
  induction answers as [| a rest IH]; [reflexivity |].
  cbn [read_options accepted_prefix stopper]. unfold selects_handler.
  destruct (Z.eqb_spec (value a) (-1)) as [Hend | Hend].
  - rewrite Hend. cbn [Z.eqb char_w char_o char_h Pos.eqb orb flat_map app].
    rewrite Hend. cbn [Z.eqb char_h Pos.eqb]. rewrite app_nil_r. reflexivity.
  - destruct (Z.eqb_spec (value a) char_h) as [Hh | Hh].
    + rewrite Hh. cbn [Z.eqb char_w char_o char_h Pos.eqb orb flat_map app].
      rewrite Hh. cbn [Z.eqb char_h Pos.eqb]. reflexivity.
    + destruct (Z.eqb_spec (value a) char_w) as [Hw | Hw].
      * cbn [orb flat_map]. rewrite IH. unfold handler_of.
        rewrite Hw. cbn [Z.eqb char_w Pos.eqb]. rewrite <- !app_assoc. reflexivity.
      * destruct (Z.eqb_spec (value a) char_o) as [Ho | Ho].
        -- cbn [orb flat_map]. rewrite IH. unfold handler_of.
           destruct (Z.eqb_spec (value a) char_w); [contradiction |].
           rewrite <- !app_assoc. reflexivity.
        -- cbn [orb flat_map app].
           destruct (Z.eqb_spec (value a) (-1)); [contradiction |].
           destruct (Z.eqb_spec (value a) char_h); [contradiction |].
           rewrite app_nil_r. reflexivity.
Qed.

(** X14. The command line of [osmium_area_test], for any behaviour of
    [getopt_long]: the handler is set once per [-w] or [-o], in their order,
    up to the first call that returns something else. The input file is
    opened exactly when that call returns the end of the options and one
    argument remains; when it returns [-h] the help text goes to
    [std::cout] and the program exits with 0; when it returns any other
    option the program exits with 1 and [main] writes nothing of its own; a
    wrong number of arguments writes the usage line to [std::cerr] and
    exits with 1. Apart from these texts, the output is what the calls of
    [getopt_long] wrote themselves, each before the step taken on its
    answer. *)
Theorem main_command_line (argc optind : Z) (argv0 : string)
    (answers : list answer) :
  let last := stopper answers in
  let before := flat_map handler_of (accepted_prefix answers) ++ written last in
  main argc optind argv0 answers
  = if (value last =? -1)%Z then
      if (argc - optind =? 1)%Z then (before, opens_input optind)
      else (before ++ [to_stderr ("Usage: " ++ argv0 ++ " [OPTIONS] OSMFILE" ++ newline)],
            exits 1)
    else if (value last =? char_h)%Z then (before ++ [to_stdout help_text], exits 0)
    else (before, exits 1).
Proof.
  intros last before. unfold main. rewrite read_options_shape. fold last.
  destruct (Z.eqb_spec (value last) (-1)) as [Hend | Hend].
  - rewrite Hend. cbn [Z.eqb char_h Pos.eqb]. rewrite app_nil_r. fold before.
    destruct (argc - optind =? 1)%Z; reflexivity.
  - destruct (value last =? char_h)%Z.
    + rewrite app_assoc. reflexivity.
    + rewrite app_nil_r. reflexivity.
Qed.
End CommandLine.

(** A disk whose fsync fails, under a client that closes again and writes
    on. *)
Lemma NoCompressor_failed_fsync_never_closes_witness :
  let r := NoCompressor.close sample.broken_disk (NoCompressor.make 3 yes, tt) in
  let later :=
    (do* NoCompressorClient.calls sample.broken_disk
           [NoCompressorClient.call_close; NoCompressorClient.call_write sample.ab]
     in NoCompressor.destroy sample.broken_disk) (final r) in
  result r = throws (system_error 5 "Fsync failed") /\
  emitted later = [ev_reliable_write (-1) sample.ab] /\
  count is_close (emitted later) = 0%nat.
Proof.
  intros r later.
  assert (H0 : (0 <= NoCompressor.m_fd (NoCompressor.make 3 yes))%Z) by (cbn; lia).
  assert (H1 : NoCompressor.m_fd (NoCompressor.make 3 yes) <> 1%Z) by (cbn; lia).
  destruct (NoCompressor_failed_fsync_never_closes sample.broken_disk
              (NoCompressor.make 3 yes) tt tt (system_error 5 "Fsync failed")
              [NoCompressorClient.call_close; NoCompressorClient.call_write sample.ab]
              H0 H1 eq_refl eq_refl) as (Hr & Hc & _).
  fold r in Hr, Hc. fold later in Hc.
  split; [rewrite Hr; reflexivity |]. split; [reflexivity | exact Hc].
Defined.

(** The registry of a program that has only this header. *)
Lemma registered_no_compression_creates_noop_codec_witness :
  let r := detail_registration.registered_no_compression (env := sample.file)
             sample.none CompressionFactory.make in
  fst r = true /\
  CompressionFactory.create_compressor sample.as_string (snd r) sample.none 3 no
    sample.empty_file
  = (returns (NoCompressor.make 3 no), sample.empty_file, [ev_callback 0]) /\
  detail_registration.registered_no_compression sample.none (snd r) = (false, snd r).
Proof.
  destruct (registered_no_compression_creates_noop_codec sample.memory_file
              sample.as_string sample.none CompressionFactory.make 3 no None 0
              sample.empty_file eq_refl) as (H1 & H2 & _ & _ & H5).
  split; [exact H1 |]. split; [exact H2 | exact H5].
Defined.

(** A descriptor whose size cannot be told is closed again. *)
Lemma create_decompressor_closes_descriptor_on_failure_witness :
  CompressionFactory.create_decompressor sample_failures.no_size sample.as_string
    (DecompressorClass0 := NoDecompressor_class sample_failures.no_size)
    sample.builtin sample.none 3 tt
  = (throws (system_error 9 "Could not get file size"), tt,
     [ev_callback 1; ev_file_size 3; ev_reliable_close 3]).
Proof.
  assert (H0 : (0 <= 3)%Z) by lia.
  exact (create_decompressor_closes_descriptor_on_failure sample_failures.no_size
           sample.as_string sample.none CompressionFactory.make 3 tt tt
           (system_error 9 "Could not get file size") eq_refl H0 eq_refl).
Defined.

(** Gzip and bzip2 registered in either order. *)
Lemma register_compression_commutes_witness :
  let f := sample.builtin (env := unit) in
  snd (CompressionFactory.register_compression sample.bzip2
         (CompressionFactory.get0 sample.refusing)
         (CompressionFactory.get1 sample.refusing)
         (CompressionFactory.get2 sample.refusing)
         (snd (CompressionFactory.register_compression sample.gzip
                 (CompressionFactory.get0 sample.no_compression)
                 (CompressionFactory.get1 sample.no_compression)
                 (CompressionFactory.get2 sample.no_compression) f)))
  = snd (CompressionFactory.register_compression sample.gzip
           (CompressionFactory.get0 sample.no_compression)
           (CompressionFactory.get1 sample.no_compression)
           (CompressionFactory.get2 sample.no_compression)
           (snd (CompressionFactory.register_compression sample.bzip2
                   (CompressionFactory.get0 sample.refusing)
                   (CompressionFactory.get1 sample.refusing)
                   (CompressionFactory.get2 sample.refusing) f))).
Proof.
  assert (Hne : sample.gzip <> sample.bzip2) by discriminate.
  exact (proj1 (register_compression_commutes sample.builtin sample.gzip sample.bzip2
                  sample.no_compression sample.refusing Hne)).
Defined.
